(** * Branch policy of the multi-branch pipeline demo

    A shallow embedding of the branch-dependent helpers of the Jenkinsfile
    ([getBranchEnvironment], [shouldDeploy], [getBranchTimeout], ...), of the
    demo HTTP server and of the scripted test runner, together with the
    properties the specification states about them.

    Strings are Rocq [string]s, one [ascii] per character: the specification's
    data model restricts branch names to ASCII.  A Groovy or JavaScript value
    that may be [null] / [undefined] is an [option string]. *)

From Stdlib Require Import Bool Arith List Ascii String Lia.
From Stdlib Require Import Numbers.DecimalString.
Import ListNotations.

Open Scope list_scope.
Open Scope string_scope.

(** ** Runtime fragments shared by the Groovy and JavaScript code *)

Module Rt.

Inductive exn : Type :=
| NullPointerException
| TypeError.

(** Outcome of a call: a value, or a thrown exception. *)
Inductive result (A : Type) : Type :=
| Ok (a : A)
| Throw (e : exn).

Arguments Ok {A} a.
Arguments Throw {A} e.

Definition bind {A B : Type} (m : result A) (k : A -> result B) : result B :=
  match m with
  | Ok a => k a
  | Throw e => Throw e
  end.

(** [recv.startsWith(p)]: a method call, so a null receiver throws. *)
Definition startsWith (recv : option string) (p : string) : result bool :=
  match recv with
  | Some s => Ok (String.prefix p s)
  | None => Throw NullPointerException
  end.

(** [x == 'lit'], [case 'lit':] and [x in ['lit', ...]]: null-safe. *)
Definition equalsStr (x : option string) (lit : string) : bool :=
  match x with
  | Some s => s =? lit
  | None => false
  end.

Definition isIn (x : option string) (lits : list string) : bool :=
  existsb (equalsStr x) lits.

(** Groovy's [x ?: d] and JavaScript's [x || d] on a string that may be
    absent: both take [d] when [x] is null/undefined or the empty string. *)
Definition elvis (x : option string) (d : string) : string :=
  match x with
  | Some s => if s =? "" then d else s
  | None => d
  end.

(** Decimal rendering of a number inside an interpolated string. *)
Definition showNat (n : nat) : string :=
  NilZero.string_of_uint (Nat.to_uint n).

End Rt.

Import Rt.

Notation "x <- m ;; k" := (bind m (fun x => k))
  (at level 61, m at next level, right associativity).

(** Concatenation of lists, apart from [++], which is read on strings. *)
Notation "a +++ b" := (List.app a b) (at level 60, right associativity).

(** ** Jenkins' [when { branch <pattern> }] condition

    The stage guards of the Jenkinsfile use the declarative-pipeline
    condition [branch 'pattern'], which belongs to the pipeline engine and
    not to this repository.  Jenkins documents it as "the branch being built
    matches the branch pattern (ANT style path glob) given" and evaluates it
    with Ant's path matcher, ignoring case: pattern and [env.BRANCH_NAME] are
    cut at ['/'] into their non-empty segments and compared segment by
    segment; [*] and [?] match inside one segment only, and a segment [**]
    stands for any number of segments.  An empty or absent branch name
    matches the empty pattern only. *)

Module Jenkins.

Definition isSlash (c : ascii) : bool := (c =? "/")%char.

(** Non-empty segments of a path, [cur] being the segment read so far. *)
Fixpoint tokenizeFrom (cur : string) (s : string) : list string :=
  match s with
  | EmptyString => if cur =? "" then [] else [cur]
  | String c s' =>
      if isSlash c
      then (if cur =? "" then tokenizeFrom "" s' else cur :: tokenizeFrom "" s')
      else tokenizeFrom (cur ++ String c "") s'
  end.

Definition tokenizePath (s : string) : list string := tokenizeFrom "" s.

Definition upper (c : ascii) : ascii :=
  let n := nat_of_ascii c in
  if ((97 <=? n) && (n <=? 122))%nat then ascii_of_nat (n - 32) else c.

Definition sameCharNoCase (a b : ascii) : bool := (upper a =? upper b)%char.

(** One segment against one pattern segment. *)
Fixpoint matchSegment (p : string) : string -> bool :=
  match p with
  | EmptyString => fun s => s =? ""
  | String c p' =>
      if (c =? "*")%char then
        fix star (s : string) : bool :=
          matchSegment p' s
          || match s with
             | EmptyString => false
             | String _ s' => star s'
             end
      else if (c =? "?")%char then
        fun s => match s with
                 | EmptyString => false
                 | String _ s' => matchSegment p' s'
                 end
      else
        fun s => match s with
                 | EmptyString => false
                 | String d s' => sameCharNoCase c d && matchSegment p' s'
                 end
  end.

Fixpoint matchSegments (ps : list string) : list string -> bool :=
  match ps with
  | [] => fun ss => match ss with [] => true | _ :: _ => false end
  | p :: ps' =>
      if p =? "**" then
        fix deep (ss : list string) : bool :=
          matchSegments ps' ss
          || match ss with
             | [] => false
             | _ :: ss' => deep ss'
             end
      else
        fun ss => match ss with
                  | [] => false
                  | s :: ss' => matchSegment p s && matchSegments ps' ss'
                  end
  end.

Definition matchPath (pattern name : string) : bool :=
  matchSegments (tokenizePath pattern) (tokenizePath name).

(** [branch pattern] evaluated on the value of [env.BRANCH_NAME]. *)
Definition branch (pattern : string) (branchName : option string) : bool :=
  match branchName with
  | None => pattern =? ""
  | Some b =>
      if (b =? "") && (pattern =? "") then true
      else if (b =? "") || (pattern =? "") then false
      else matchPath pattern b
  end.

End Jenkins.

(** ** The helper functions of the Jenkinsfile

    Two versions of the Jenkinsfile are in the repository.  Their helpers are
    the same text, except that the current one starts every helper with
    [branchName = branchName ?: 'unknown'] and the earlier one does not.
    [norm] is that first line. *)

Module Helpers.

Section WithNorm.

Variable norm : option string -> option string.

Definition getBranchEnvironment (branchName : option string) : result string :=
let branchName := norm branchName in
if equalsStr branchName "main" || equalsStr branchName "master" then Ok "production"
else if equalsStr branchName "develop" then Ok "staging"
else
  isFeature <- startsWith branchName "feature/" ;;
  if isFeature then Ok "development"
  else
    isHotfix <- startsWith branchName "hotfix/" ;;
    if isHotfix then Ok "hotfix"
    else Ok "development".

Definition shouldDeploy (branchName : option string) : result string :=
let branchName := norm branchName in
cond <- (if isIn branchName ["develop"] then Ok true
         else startsWith branchName "feature/") ;;
Ok (if cond then "true" else "false").

Definition getBranchTimeout (branchName : option string) : result nat :=
let branchName := norm branchName in
if equalsStr branchName "main" || equalsStr branchName "master" then Ok 60
else if equalsStr branchName "develop" then Ok 45
else Ok 30.

Definition getBranchBuildRetention (branchName : option string) : result string :=
let branchName := norm branchName in
if equalsStr branchName "main" || equalsStr branchName "master" then Ok "50"
else if equalsStr branchName "develop" then Ok "20"
else Ok "10".

Definition getBranchSlackChannel (branchName : option string) : result string :=
let branchName := norm branchName in
if equalsStr branchName "main" || equalsStr branchName "master"
then Ok "#production-alerts"
else if equalsStr branchName "develop" then Ok "#staging-updates"
else Ok "#development".

Definition getBranchType (branchName : option string) : result string :=
let branchName := norm branchName in
if isIn branchName ["main"; "master"] then Ok "Production"
else if equalsStr branchName "develop" then Ok "Staging"
else
  isFeature <- startsWith branchName "feature/" ;;
  if isFeature then Ok "Feature"
  else
    isHotfix <- startsWith branchName "hotfix/" ;;
    if isHotfix then Ok "Hotfix"
    else
      isRelease <- startsWith branchName "release/" ;;
      if isRelease then Ok "Release"
      else Ok "Unknown".

Definition validPrefixes : list string :=
["main"; "master"; "develop"; "feature/"; "hotfix/"; "release/"].

(** [validPrefixes.any { branchName.startsWith(it) }], left to right,
  stopping at the first prefix that fits. *)
Fixpoint anyStartsWith (branchName : option string) (ps : list string) : result bool :=
match ps with
| [] => Ok false
| p :: ps' =>
    hit <- startsWith branchName p ;;
    if hit then Ok true else anyStartsWith branchName ps'
end.

(** The value of a Groovy string interpolation [${x}]. *)
Definition interp (x : option string) : string :=
match x with
| Some s => s
| None => "null"
end.

(** [validateBranchName] returns nothing; its effect is the lines it
  echoes, which are the result here. *)
Definition validateBranchName (branchName : option string) : result (list string) :=
let branchName := norm branchName in
isValid <- anyStartsWith branchName validPrefixes ;;
if negb isValid then
  Ok [ "⚠️ Warning: Branch name '" ++ interp branchName
          ++ "' doesn't follow naming conventions";
       "Expected prefixes: " ++ String.concat ", " validPrefixes ]
else Ok [].

(** [s.replaceAll('[^a-zA-Z0-9.-]', '-')]: the character class of the
  regular expression, and the replacement of every character outside it. *)
Definition inRange (lo hi c : ascii) : bool :=
((nat_of_ascii lo <=? nat_of_ascii c) && (nat_of_ascii c <=? nat_of_ascii hi))%nat.

Definition inTagClass (c : ascii) : bool :=
inRange "a" "z" c || inRange "A" "Z" c || inRange "0" "9" c
|| (c =? ".")%char || (c =? "-")%char.

Fixpoint mapChars (f : ascii -> ascii) (s : string) : string :=
match s with
| EmptyString => EmptyString
| String c s' => String (f c) (mapChars f s')
end.

Definition replaceAllOutsideTagClass (recv : option string) : result string :=
match recv with
| Some s => Ok (mapChars (fun c => if inTagClass c then c else "-"%char) s)
| None => Throw NullPointerException
end.

Definition lowerChar (c : ascii) : ascii :=
if inRange "A" "Z" c then ascii_of_nat (nat_of_ascii c + 32) else c.

Definition toLowerCase (s : string) : string := mapChars lowerChar s.

Definition createDockerTag (branchName buildNumber : option string) : result string :=
let branchName := norm branchName in
replaced <- replaceAllOutsideTagClass branchName ;;
let cleanBranch := toLowerCase replaced in
Ok (cleanBranch ++ "-" ++ interp buildNumber).

(** The guard of stage 'Auto Deploy':
  [allOf { expression { env.DEPLOY_ENABLED == 'true' }
           anyOf { branch 'develop'
                   allOf { branch 'feature/*'
                           expression { env.BRANCH_NAME != 'feature/experimental' } } } }]
  with [DEPLOY_ENABLED = shouldDeploy(env.BRANCH_NAME)]. *)
Definition autoDeployGuard (BRANCH_NAME : option string) : result bool :=
DEPLOY_ENABLED <- shouldDeploy BRANCH_NAME ;;
Ok ((DEPLOY_ENABLED =? "true")
    && (Jenkins.branch "develop" BRANCH_NAME
        || (Jenkins.branch "feature/*" BRANCH_NAME
            && negb (equalsStr BRANCH_NAME "feature/experimental")))).

(** Everything the pipeline derives from the branch name. *)
Record classification : Type := mkClassification {
branchType : string;
environment : string;
autoDeployEligible : bool;
buildTimeoutMinutes : nat;
buildRetention : string;
notificationChannel : string
}.

Definition classify (BRANCH_NAME : option string) : result classification :=
ty <- getBranchType BRANCH_NAME ;;
env <- getBranchEnvironment BRANCH_NAME ;;
dep <- autoDeployGuard BRANCH_NAME ;;
tmo <- getBranchTimeout BRANCH_NAME ;;
ret <- getBranchBuildRetention BRANCH_NAME ;;
chan <- getBranchSlackChannel BRANCH_NAME ;;
Ok (mkClassification ty env dep tmo ret chan).

(** The agent label of a branch. *)
Definition getBranchAgent (branchName : option string) : result string :=
let branchName := norm branchName in
if equalsStr branchName "main" || equalsStr branchName "master" then Ok "production-agent"
else if equalsStr branchName "develop" then Ok "staging-agent"
else Ok "any".

End WithNorm.

End Helpers.

(** The current Jenkinsfile: every helper first replaces a null or empty
    branch name by ['unknown']. *)
Module Pipeline.

Definition norm (branchName : option string) : option string :=
  Some (elvis branchName "unknown").

Definition getBranchEnvironment := Helpers.getBranchEnvironment norm.
Definition shouldDeploy := Helpers.shouldDeploy norm.
Definition getBranchTimeout := Helpers.getBranchTimeout norm.
Definition getBranchBuildRetention := Helpers.getBranchBuildRetention norm.
Definition getBranchSlackChannel := Helpers.getBranchSlackChannel norm.
Definition getBranchType := Helpers.getBranchType norm.
Definition validateBranchName := Helpers.validateBranchName norm.
Definition createDockerTag := Helpers.createDockerTag norm.
Definition autoDeployGuard := Helpers.autoDeployGuard norm.
Definition classify := Helpers.classify norm.
Definition getBranchAgent := Helpers.getBranchAgent norm.

End Pipeline.

(** The earlier Jenkinsfile: the helpers use the branch name as it comes. *)
Module EarlierPipeline.

Definition norm (branchName : option string) : option string := branchName.

Definition getBranchEnvironment := Helpers.getBranchEnvironment norm.
Definition getBranchType := Helpers.getBranchType norm.
Definition classify := Helpers.classify norm.
Definition shouldDeploy := Helpers.shouldDeploy norm.
Definition getBranchTimeout := Helpers.getBranchTimeout norm.
Definition getBranchBuildRetention := Helpers.getBranchBuildRetention norm.
Definition getBranchSlackChannel := Helpers.getBranchSlackChannel norm.
Definition getBranchAgent := Helpers.getBranchAgent norm.
Definition validateBranchName := Helpers.validateBranchName norm.
Definition createDockerTag := Helpers.createDockerTag norm.

End EarlierPipeline.

Import Helpers.

(** ** The stages of the Jenkinsfile that look at the branch

    The stage guards and stage scripts read [env.BRANCH_NAME] itself, not
    through the helpers' default.  The guards and the build and Docker
    scripts are the same in both versions of the Jenkinsfile; the parameter
    checks are in the current one only. *)

Module Stages.

(** The build parameters. *)
Record parameters : Type := mkParameters {
  DEPLOY_TO_PRODUCTION : bool;
  RUN_PERFORMANCE_TESTS : bool;
  SKIP_INTEGRATION_TESTS : bool;
  ENABLE_DEBUG_MODE : bool
}.

(** A step of a stage script: [echo], or [sh] with its commands, each
    command as its words. *)
Inductive step : Type :=
| Echo (line : string)
| Sh (commands : list (list string)).

(** Stage 'Integration Tests':
    [not { anyOf { allOf { branch 'feature/*'
                           expression { params.SKIP_INTEGRATION_TESTS == true } } } }]. *)
Definition integrationTestsWhen (params : parameters) (BRANCH_NAME : option string) : bool :=
  negb (Jenkins.branch "feature/*" BRANCH_NAME && SKIP_INTEGRATION_TESTS params).

(** Stage 'Performance Tests':
    [anyOf { branch 'main'; branch 'master';
             expression { params.RUN_PERFORMANCE_TESTS == true } }]. *)
Definition performanceTestsWhen (params : parameters) (BRANCH_NAME : option string) : bool :=
  Jenkins.branch "main" BRANCH_NAME || Jenkins.branch "master" BRANCH_NAME
  || RUN_PERFORMANCE_TESTS params.

(** Stage 'Docker Build':
    [anyOf { branch 'main'; branch 'master'; branch 'develop'; branch 'feature/*' }]. *)
Definition dockerBuildWhen (BRANCH_NAME : option string) : bool :=
  Jenkins.branch "main" BRANCH_NAME || Jenkins.branch "master" BRANCH_NAME
  || Jenkins.branch "develop" BRANCH_NAME || Jenkins.branch "feature/*" BRANCH_NAME.

(** Stage 'Production Deploy':
    [allOf { anyOf { branch 'main'; branch 'master' }
             expression { params.DEPLOY_TO_PRODUCTION == true } }]. *)
Definition productionDeployWhen (params : parameters) (BRANCH_NAME : option string) : bool :=
  (Jenkins.branch "main" BRANCH_NAME || Jenkins.branch "master" BRANCH_NAME)
  && DEPLOY_TO_PRODUCTION params.

(** Stage 'Code Quality':
    [env.BRANCH_NAME in ['main', 'master'] ? 'strict' : 'standard']. *)
Definition qualityGate (BRANCH_NAME : option string) : string :=
  if isIn BRANCH_NAME ["main"; "master"] then "strict" else "standard".

(** The parameter checks of stage 'Environment Setup', as the lines they
    echo.  [a && b] evaluates [b] only when [a] holds. *)
Definition parameterValidation (params : parameters) (BRANCH_NAME : option string)
    : result (list string) :=
  let out := [ "📋 Parameter Validation:" ] in
  let out :=
    if DEPLOY_TO_PRODUCTION params && negb (isIn BRANCH_NAME ["main"; "master"])
    then out +++ [ "⚠️ Warning: DEPLOY_TO_PRODUCTION is only recommended for main/master branches" ]
    else out in
  cond <- (if RUN_PERFORMANCE_TESTS params
           then startsWith BRANCH_NAME "feature/" else Ok false) ;;
  let out :=
    if cond
    then out +++ [ "ℹ️ Info: Performance tests enabled for feature branch (may increase build time)" ]
    else out in
  let out :=
    if SKIP_INTEGRATION_TESTS params && isIn BRANCH_NAME ["main"; "master"]
    then out +++ [ "⚠️ Warning: Skipping integration tests is not recommended for production branches" ]
    else out in
  Ok out.

Section WithNorm.

Variable norm : option string -> option string.

(** The script of stage 'Build Application';
    [TARGET_ENVIRONMENT = getBranchEnvironment(env.BRANCH_NAME)]. *)
Definition buildApplication (BRANCH_NAME : option string) : result (list step) :=
  TARGET_ENVIRONMENT <- getBranchEnvironment norm BRANCH_NAME ;;
  let out := [ Echo ("🏗️ Building Application for " ++ TARGET_ENVIRONMENT);
               Echo "==============================================" ] in
  if equalsStr BRANCH_NAME "main" || equalsStr BRANCH_NAME "master" then
    Ok (out +++ [ Echo "🚀 Production Build Process";
                  Sh [ ["npm"; "install"; "--production"];
                       ["npm"; "run"; "build"];
                       ["echo"; "Production optimizations applied"];
                       ["echo"; "Build artifacts created for production"] ] ])
  else if equalsStr BRANCH_NAME "develop" then
    Ok (out +++ [ Echo "🔧 Staging Build Process";
                  Sh [ ["npm"; "install"];
                       ["npm"; "run"; "build"];
                       ["echo"; "Staging build with debug symbols"] ] ])
  else
    isFeature <- startsWith BRANCH_NAME "feature/" ;;
    if isFeature then
      Ok (out +++ [ Echo "💡 Feature Branch Build Process";
                    Sh [ ["npm"; "install"];
                         ["npm"; "run"; "build"];
                         ["echo"; "Feature branch build - development mode"] ] ])
    else
      isHotfix <- startsWith BRANCH_NAME "hotfix/" ;;
      if isHotfix then
        Ok (out +++ [ Echo "🚨 Hotfix Branch Build Process";
                      Sh [ ["npm"; "install"; "--production"];
                           ["npm"; "run"; "build"];
                           ["echo"; "Hotfix build - production-ready"] ] ])
      else
        Ok (out +++ [ Echo "🔄 Standard Build Process";
                      Sh [ ["npm"; "install"];
                           ["npm"; "run"; "build"] ] ]).

(** What stage 'Docker Build' names the image: the tag it builds and
    stores in [env.DOCKER_TAG], and the two image references of its
    [docker build -t] and [docker tag] commands, as the interpolation
    writes them into the script. *)
Record dockerNames : Type := mkDockerNames {
  DOCKER_TAG : string;
  builtImage : string;
  latestImage : string
}.

Definition DOCKER_IMAGE : string := "multi-branch-demo".

Definition dockerBuild (BRANCH_NAME BUILD_NUMBER : option string) : result dockerNames :=
  dockerTag <- createDockerTag norm BRANCH_NAME BUILD_NUMBER ;;
  Ok (mkDockerNames dockerTag
        (DOCKER_IMAGE ++ ":" ++ dockerTag)
        (DOCKER_IMAGE ++ ":" ++ interp BRANCH_NAME ++ "-latest")).

End WithNorm.

End Stages.

(** ** The demo HTTP server (src/app.js) *)

Module App.

(** The server's own copy of the environment rule. *)
Definition getBranchEnvironment (branch : string) : string :=
  if (branch =? "main") || (branch =? "master") then "production"
  else if branch =? "develop" then "staging"
  else if String.prefix "feature/" branch then "development"
  else if String.prefix "hotfix/" branch then "hotfix"
  else "unknown".

(** The values JSON.stringify is applied to. *)
#[warnings="-register-all"] Inductive json : Type :=
| JString (s : string)
| JObject (members : list (string * json)).

(** [JSON.stringify(value)] and [JSON.stringify(value, null, indent)];
    the rendering itself is the JavaScript runtime's. *)
Inductive payload : Type :=
| Stringify (value : json) (indent : option nat).

(** What the handler has done to [res]. *)
Record serverResponse : Type := mkResponse {
  statusCode : option nat;
  headers : list (string * string);
  body : option payload
}.

Definition freshResponse : serverResponse := mkResponse None [] None.

Definition writeHead (code : nat) (hs : list (string * string))
    (res : serverResponse) : serverResponse :=
  mkResponse (Some code) hs (body res).

Definition endWith (p : payload) (res : serverResponse) : serverResponse :=
  mkResponse (statusCode res) (headers res) (Some p).

Record incomingMessage : Type := mkRequest {
  method : string;
  url : string
}.

Section Process.

(** [process.env.BRANCH_NAME] and [process.env.BUILD_NUMBER]. *)
Variables BRANCH_NAME BUILD_NUMBER : option string.

Definition branchName : string := elvis BRANCH_NAME "unknown".
Definition buildNumber : string := elvis BUILD_NUMBER "unknown".
Definition environment : string := getBranchEnvironment branchName.

(** The request listener; [now] is [new Date().toISOString()]. *)
Definition handler (now : string) (req : incomingMessage)
    (res : serverResponse) : serverResponse :=
  let res := writeHead 200 [("Content-Type", "application/json")] res in
  let response :=
    JObject [ ("message", JString "Hello from Multi-Branch Pipeline Demo!");
              ("branch", JString branchName);
              ("build", JString buildNumber);
              ("environment", JString environment);
              ("timestamp", JString now);
              ("endpoints", JObject [ ("health", JString "/health");
                                      ("info", JString "/info") ]) ] in
  if url req =? "/health" then
    endWith (Stringify (JObject [ ("status", JString "healthy");
                                  ("branch", JString branchName);
                                  ("environment", JString environment) ]) None) res
  else if url req =? "/info" then
    endWith (Stringify (JObject [ ("application", JString "multi-branch-demo");
                                  ("version", JString "1.0.0");
                                  ("branch", JString branchName);
                                  ("build", JString buildNumber);
                                  ("environment", JString environment) ]) None) res
  else
    endWith (Stringify response (Some 2)) res.

End Process.

(** The keys of a JSON object, in order. *)
Definition keys (v : json) : list string :=
  match v with
  | JObject ms => map fst ms
  | JString _ => []
  end.

End App.

(** ** The scripted test runner (tests/app.test.js) *)

Module AppTest.

Record config : Type := mkConfig {
  testCount : nat;
  environment : string;
  skipIntegrationTests : bool
}.

Definition testConfig : list (string * config) :=
  [ ("main", mkConfig 15 "production" false);
    ("develop", mkConfig 12 "staging" false);
    ("feature", mkConfig 8 "development" true);
    ("hotfix", mkConfig 10 "hotfix" false) ].

(** [testConfig[key]]: [undefined] when the key is not a property. *)
Fixpoint lookup (key : string) (obj : list (string * config)) : option config :=
  match obj with
  | [] => None
  | (k, v) :: obj' => if k =? key then Some v else lookup key obj'
  end.

(** Reading a property of [config] throws when [config] is undefined. *)
Definition defined (c : option config) : result config :=
  match c with
  | Some v => Ok v
  | None => Throw TypeError
  end.

Definition selectConfig (branchName : string) : option config :=
  let config := lookup "feature" testConfig in
  if (branchName =? "main") || (branchName =? "master") then lookup "main" testConfig
  else if branchName =? "develop" then lookup "develop" testConfig
  else if String.prefix "hotfix/" branchName then lookup "hotfix" testConfig
  else config.

Definition testLine (i n : nat) : string :=
  "✅ Test " ++ showNat i ++ "/" ++ showNat n ++ ": PASSED".

(** [console.log(line)]: the log is the list of lines written so far. *)
Definition consoleLog (line : string) (out : list string) : list string :=
  (out ++ [line])%list.

(** [for (let i = 1; i <= n; i++) console.log(...)], entered with the loop
    variable at [i]; [fuel] bounds the number of iterations. *)
Fixpoint testLoop (fuel i n : nat) (out : list string) : list string :=
  match fuel with
  | 0 => out
  | S fuel' =>
      if (i <=? n)%nat
      then testLoop fuel' (S i) n (consoleLog (testLine i n) out)
      else out
  end.

Definition integrationLines : list string :=
  [ "✅ Integration Test 1: API connectivity - PASSED";
    "✅ Integration Test 2: Database connection - PASSED";
    "✅ Integration Test 3: External service - PASSED" ].

(** The script, as the log it leaves. *)
Definition run (BRANCH_NAME : option string) : result (list string) :=
  let branchName := elvis BRANCH_NAME "unknown" in
  let out := consoleLog ("Running tests for branch: " ++ branchName) [] in
  config <- defined (selectConfig branchName) ;;
  let out := consoleLog ("Test configuration for " ++ environment config ++ ":") out in
  let out := consoleLog ("- Test count: " ++ showNat (testCount config)) out in
  let out := consoleLog ("- Integration tests: "
                         ++ (if negb (skipIntegrationTests config)
                             then "enabled" else "disabled")) out in
  let out := testLoop (testCount config) 1 (testCount config) out in
  let out :=
    if negb (skipIntegrationTests config) then
      let out := consoleLog "🔗 Running integration tests..." out in
      let out := consoleLog "✅ Integration Test 1: API connectivity - PASSED" out in
      let out := consoleLog "✅ Integration Test 2: Database connection - PASSED" out in
      consoleLog "✅ Integration Test 3: External service - PASSED" out
    else out in
  Ok (consoleLog ("🎉 All tests passed for branch: " ++ branchName) out).

End AppTest.

(** ** The specification's vocabulary *)

Module Spec.

(** The record of the default rule (rule 6). *)
Definition defaultRecord : classification :=
  mkClassification "Unknown" "development" false 30 "10" "#development".

(** A name no rule but the default one applies to. *)
Definition fallsToDefault (b : string) : Prop :=
  b <> "main" /\ b <> "master" /\ b <> "develop"
  /\ String.prefix "feature/" b = false
  /\ String.prefix "hotfix/" b = false
  /\ String.prefix "release/" b = false.

(** Well-formed names, as the validation paragraph defines them. *)
Definition wellFormed (b : string) : bool :=
  (b =? "main") || (b =? "master") || (b =? "develop")
  || String.prefix "feature/" b || String.prefix "hotfix/" b
  || String.prefix "release/" b.

(** A record with every derived field present. *)
Definition complete (r : classification) : Prop :=
  In (branchType r) ["Production"; "Staging"; "Feature"; "Hotfix"; "Release"; "Unknown"]
  /\ environment r <> ""
  /\ 0 < buildTimeoutMinutes r
  /\ buildRetention r <> ""
  /\ notificationChannel r <> "".

(** The sanitized tag in the specification's words: the characters that are
    kept, the lower-case letter of each capital, and the three steps. *)
Definition keptChars : string :=
  "ABCDEFGHIJKLMNOPQRSTUVWXYZabcdefghijklmnopqrstuvwxyz0123456789.-".

Fixpoint occurs (c : ascii) (s : string) : bool :=
  match s with
  | EmptyString => false
  | String d s' => (c =? d)%char || occurs c s'
  end.

Fixpoint translate (from to : string) (c : ascii) : ascii :=
  match from, to with
  | String f from', String t to' => if (c =? f)%char then t else translate from' to' c
  | _, _ => c
  end.

Definition hyphenate (c : ascii) : ascii :=
  if occurs c keptChars then c else "-"%char.

Definition lowercase (c : ascii) : ascii :=
  translate "ABCDEFGHIJKLMNOPQRSTUVWXYZ" "abcdefghijklmnopqrstuvwxyz" c.

Definition sanitizeTag (b : string) (runNumber : nat) : string :=
  mapChars lowercase (mapChars hyphenate b) ++ "-" ++ showNat runNumber.


End Spec.

(** ** Observations on results *)

Module Obs.

(** Every character of a string satisfies a test. *)
Fixpoint allChars (ok : ascii -> bool) (s : string) : bool :=
  match s with
  | EmptyString => true
  | String c s' => ok c && allChars ok s'
  end.

(** The characters a Docker tag is made of after cleaning. *)
Definition tagAlphabet : string := "abcdefghijklmnopqrstuvwxyz0123456789.-".

Definition isTagChar (c : ascii) : bool := Spec.occurs c tagAlphabet.

Definition isDigit (c : ascii) : bool := Spec.occurs c "0123456789".

(** The shell commands a stage script runs, in order. *)
Definition commandsOf (steps : list Stages.step) : list (list string) :=
  flat_map (fun st => match st with
                      | Stages.Sh cs => cs
                      | Stages.Echo _ => []
                      end) steps.

(** The members of the JSON object a response carries. *)
Definition membersOf (res : App.serverResponse) : list (string * App.json) :=
  match App.body res with
  | Some (App.Stringify (App.JObject ms) _) => ms
  | _ => []
  end.

End Obs.

(** * Properties *)

(** ** Strings *)

Lemma prefix_empty (s : string) : String.prefix "" s = true.
Proof. destruct s; reflexivity. Qed.

Lemma prefix_split (p s : string) :
  String.prefix p s = true -> exists r, s = p ++ r.
Proof.
  revert s; induction p as [|c p IH]; intros s H.
  - exists s; reflexivity.
  - destruct s as [|d s]; simpl in H; [discriminate|].
    destruct (ascii_dec c d) as [->|]; [|discriminate].
    destruct (IH s H) as [r ->]. exists r; reflexivity.
Qed.



Lemma append_empty_iff (a b : string) :
  (a ++ b =? "") = (a =? "") && (b =? "").
Proof. destruct a, b; reflexivity. Qed.

(** ** The helpers on a name the default rule applies to *)

Ltac unfold_helpers :=
  unfold Pipeline.classify, EarlierPipeline.classify, classify,
    getBranchType, getBranchEnvironment, autoDeployGuard, shouldDeploy,
    getBranchTimeout, getBranchBuildRetention, getBranchSlackChannel,
    Pipeline.norm, EarlierPipeline.norm, isIn, existsb, equalsStr, startsWith, bind.

Lemma elvis_nonempty (s d : string) : s <> "" -> elvis (Some s) d = s.
Proof.
  intros H. unfold elvis. apply String.eqb_neq in H. now rewrite H.
Qed.

Lemma classify_default (b : string) :
  Spec.fallsToDefault b -> Pipeline.classify (Some b) = Ok Spec.defaultRecord.
Proof.
  intros (Hm & Hs & Hd & Hf & Hh & Hr).
  destruct (String.eqb_spec b "") as [->|Hne].
  - reflexivity.
  - unfold_helpers. rewrite (elvis_nonempty _ _ Hne).
    apply String.eqb_neq in Hm, Hs, Hd.
    rewrite Hm, Hs, Hd, Hf, Hh, Hr. reflexivity.
Qed.

Example classify_main :
  Pipeline.classify (Some "main")
  = Ok (mkClassification "Production" "production" false 60 "50" "#production-alerts").
Proof. reflexivity. Qed.

Example classify_develop :
  Pipeline.classify (Some "develop")
  = Ok (mkClassification "Staging" "staging" true 45 "20" "#staging-updates").
Proof. reflexivity. Qed.

Example classify_hotfix :
  Pipeline.classify (Some "hotfix/cve-1")
  = Ok (mkClassification "Hotfix" "hotfix" false 30 "10" "#development").
Proof. reflexivity. Qed.

Example classify_feature :
  Pipeline.classify (Some "feature/login")
  = Ok (mkClassification "Feature" "development" true 30 "10" "#development").
Proof. reflexivity. Qed.

Example createDockerTag_example :
  Pipeline.createDockerTag (Some "feature/My_Branch!") (Some "42")
  = Ok "feature-my-branch--42".
Proof. reflexivity. Qed.

(** ** The classification rules *)

(** C6: "main" and "master" yield the same derived record (type,
    environment, auto-deploy eligibility, timeout, retention and channel);
    the demo server's environment rule agrees on the two names as well. *)
Theorem C6_main_master_same_record :
  Pipeline.classify (Some "main") = Pipeline.classify (Some "master")
  /\ Pipeline.classify (Some "main")
     = Ok (mkClassification "Production" "production" false 60 "50" "#production-alerts")
  /\ App.getBranchEnvironment "main" = App.getBranchEnvironment "master".
Proof. repeat split. Qed.

(** C3: every branch name starting with "release/" is classified as type
    Release with the default environment "development", timeout 30,
    retention 10, channel "#development" and no auto-deploy. *)
Theorem C3_release_falls_through (b : string) :
  String.prefix "release/" b = true ->
  Pipeline.classify (Some b)
  = Ok (mkClassification "Release" "development" false 30 "10" "#development").
Proof.
  intros H. destruct (prefix_split _ _ H) as [r ->].
  unfold_helpers. simpl. rewrite prefix_empty. reflexivity.
Qed.

Lemma C3_release_witness :
  String.prefix "release/" "release/2.0" = true
  /\ Pipeline.classify (Some "release/2.0")
     = Ok (mkClassification "Release" "development" false 30 "10" "#development").
Proof.
  split; [reflexivity | apply (C3_release_falls_through "release/2.0"); reflexivity].
Defined.

(** C2, as the code has it: on a name no other rule applies to, the
    pipeline's helpers give type Unknown, environment "development",
    timeout 30, retention 10, channel "#development" and no auto-deploy,
    while the demo server's own environment rule answers "unknown". *)
Theorem C2_default_rule (b : string) :
  Spec.fallsToDefault b ->
  Pipeline.classify (Some b) = Ok Spec.defaultRecord
  /\ App.getBranchEnvironment b = "unknown".
Proof.
  intros H. split; [now apply classify_default|].
  destruct H as (Hm & Hs & Hd & Hf & Hh & _).
  apply String.eqb_neq in Hm, Hs, Hd.
  unfold App.getBranchEnvironment. now rewrite Hm, Hs, Hd, Hf, Hh.
Qed.

Lemma C2_default_rule_witness :
  Spec.fallsToDefault "bugfix/typo"
  /\ Pipeline.classify (Some "bugfix/typo") = Ok Spec.defaultRecord
  /\ App.getBranchEnvironment "bugfix/typo" = "unknown".
Proof.
  assert (H : Spec.fallsToDefault "bugfix/typo") by (repeat split; discriminate).
  split; [exact H | exact (C2_default_rule "bugfix/typo" H)].
Defined.

(** C2 as stated fails on the demo server: "bugfix/typo" falls to the
    default rule, and the server derives the environment "unknown" from it,
    not "development". *)
Lemma C2_server_default_is_unknown :
  Spec.fallsToDefault "bugfix/typo"
  /\ App.environment (Some "bugfix/typo") = "unknown"
  /\ App.environment (Some "bugfix/typo") <> environment Spec.defaultRecord.
Proof. split; [repeat split; discriminate | split; [reflexivity | discriminate]]. Qed.

(** ** The guard of the Auto Deploy stage *)







(** C1: the claim gives every branch name starting with "feature/", other
    than "feature/experimental", the auto-deploy result true, and
    [shouldDeploy] - "which branches should auto-deploy" - answers 'true'
    for all of them.  The guard of stage 'Auto Deploy' misses the nested
    ones: "feature/a/b" starts with "feature/", is not
    "feature/experimental" and has DEPLOY_ENABLED 'true', yet
    [branch 'feature/*'] does not match it and it is not auto-deployed. *)
Lemma C1_nested_feature_not_deployed :
  String.prefix "feature/" "feature/a/b" = true
  /\ "feature/a/b" <> "feature/experimental"
  /\ Pipeline.shouldDeploy (Some "feature/a/b") = Ok "true"
  /\ Jenkins.branch "feature/*" (Some "feature/a/b") = false
  /\ Pipeline.classify (Some "feature/a/b")
     = Ok (mkClassification "Feature" "development" false 30 "10" "#development").
Proof. repeat split. discriminate. Qed.

(** ** The sanitized Docker tag *)

Lemma inTagClass_keptChars (c : ascii) : inTagClass c = Spec.occurs c Spec.keptChars.
Proof. destruct c as [[] [] [] [] [] [] [] []]; reflexivity. Qed.

Lemma lowerChar_lowercase (c : ascii) : lowerChar c = Spec.lowercase c.
Proof. destruct c as [[] [] [] [] [] [] [] []]; reflexivity. Qed.

Lemma mapChars_ext (f g : ascii -> ascii) (s : string) :
  (forall c, f c = g c) -> mapChars f s = mapChars g s.
Proof.
  intros H. induction s as [|c s IH]; simpl; [reflexivity | now rewrite H, IH].
Qed.

Lemma createDockerTag_nonempty (b : string) (n : nat) :
  b <> "" ->
  Pipeline.createDockerTag (Some b) (Some (showNat n)) = Ok (Spec.sanitizeTag b n).
Proof.
  intros Hne.
  unfold Pipeline.createDockerTag, createDockerTag, Pipeline.norm.
  rewrite (elvis_nonempty _ _ Hne).
  unfold replaceAllOutsideTagClass, bind, toLowerCase, interp, Spec.sanitizeTag.
  do 2 f_equal.
  rewrite (mapChars_ext lowerChar Spec.lowercase _ lowerChar_lowercase).
  f_equal. apply mapChars_ext. intros c.
  unfold Spec.hyphenate. now rewrite inTagClass_keptChars.
Qed.

(** C4: for every branch name b and run number n the tag is the string
    obtained by replacing every character of b outside [A-Za-z0-9.-] with
    '-', lower-casing the result and appending "-" and n.  An empty name is
    taken as "unknown" first, as the specification says of empty input, so
    the second part holds of every string; "feature/My_Branch!" with run 42
    gives "feature-my-branch--42". *)
Theorem C4_sanitized_tag (b : string) (n : nat) :
  (b <> "" ->
   Pipeline.createDockerTag (Some b) (Some (showNat n)) = Ok (Spec.sanitizeTag b n))
  /\ Pipeline.createDockerTag (Some b) (Some (showNat n))
     = Ok (Spec.sanitizeTag (if b =? "" then "unknown" else b) n)
  /\ Pipeline.createDockerTag (Some "feature/My_Branch!") (Some (showNat 42))
     = Ok "feature-my-branch--42".
Proof.
  split; [apply createDockerTag_nonempty|]. split; [|reflexivity].
  destruct (String.eqb_spec b "") as [->|Hne].
  - reflexivity.
  - now apply createDockerTag_nonempty.
Qed.

Lemma C4_sanitized_tag_witness :
  "Release/2.0 RC" <> ""
  /\ Pipeline.createDockerTag (Some "Release/2.0 RC") (Some (showNat 7))
     = Ok "release-2.0-rc-7".
Proof.
  assert (Hne : "Release/2.0 RC" <> "") by discriminate.
  split; [exact Hne|].
  exact (proj1 (C4_sanitized_tag "Release/2.0 RC" 7) Hne).
Defined.

(** ** Validation of the branch name *)

Lemma anyStartsWith_existsb (s : string) (ps : list string) :
  anyStartsWith (Some s) ps = Ok (existsb (fun p => String.prefix p s) ps).
Proof.
  induction ps as [|p ps IH]; simpl; [reflexivity|].
  destruct (String.prefix p s); [reflexivity | exact IH].
Qed.

Lemma malformed_fallsToDefault (b : string) :
  Spec.wellFormed b = false -> Spec.fallsToDefault b.
Proof.
  unfold Spec.wellFormed. intros H.
  repeat (apply orb_false_iff in H; destruct H as [H ?]).
  repeat split; try assumption; now apply String.eqb_neq.
Qed.

(** What the validator does: it warns exactly when the name (or
    "unknown", for an empty or absent name) starts with none of "main",
    "master", "develop", "feature/", "hotfix/", "release/".  Every
    well-formed name passes without a warning.  No name is rejected: a
    malformed name is still classified, by the default rule, and so is an
    absent one. *)
Theorem validator_warns_iff_no_valid_prefix (BRANCH_NAME : option string) :
  let name := elvis BRANCH_NAME "unknown" in
  let accepted := existsb (fun p => String.prefix p name) validPrefixes in
  Pipeline.validateBranchName BRANCH_NAME
  = Ok (if accepted then []
        else [ "⚠️ Warning: Branch name '" ++ name
                 ++ "' doesn't follow naming conventions";
               "Expected prefixes: main, master, develop, feature/, hotfix/, release/" ])
  /\ (forall b, BRANCH_NAME = Some b -> Spec.wellFormed b = true -> accepted = true)
  /\ (forall b, BRANCH_NAME = Some b -> Spec.wellFormed b = false ->
      Pipeline.classify BRANCH_NAME = Ok Spec.defaultRecord)
  /\ (BRANCH_NAME = None ->
      accepted = false /\ Pipeline.classify BRANCH_NAME = Ok Spec.defaultRecord).
Proof.
  intros name accepted. split; [|split; [|split]].
  - unfold Pipeline.validateBranchName, validateBranchName, Pipeline.norm.
    fold name. rewrite anyStartsWith_existsb. fold accepted.
    unfold bind. destruct accepted; reflexivity.
  - intros b -> Hwf. destruct (String.eqb_spec b "") as [->|Hne]; [discriminate|].
    subst accepted name. rewrite (elvis_nonempty _ _ Hne).
    unfold Spec.wellFormed in Hwf. unfold validPrefixes. simpl.
    repeat (apply orb_true_iff in Hwf; destruct Hwf as [Hwf|Hwf]);
      try (apply String.eqb_eq in Hwf; subst b; reflexivity);
      rewrite Hwf; repeat rewrite orb_true_r; reflexivity.
  - intros b -> Hwf. apply classify_default. now apply malformed_fallsToDefault.
  - intros ->. split; reflexivity.
Qed.

(** C5: the claim asks for a warning on every malformed name, and
    [getBranchType] takes "main", "master" and "develop" as exact names.
    The validator tests them as prefixes: "mainline" is malformed (it is
    not "main" and has none of the three prefixes) and of type Unknown, yet
    it gets no warning, because it starts with "main". *)
Lemma C5_mainline_not_warned :
  Spec.wellFormed "mainline" = false
  /\ Pipeline.getBranchType (Some "mainline") = Ok "Unknown"
  /\ Pipeline.validateBranchName (Some "mainline") = Ok []
  /\ Pipeline.classify (Some "mainline") = Ok Spec.defaultRecord.
Proof. repeat split. Qed.

(** ** Totality *)

Ltac solve_complete :=
  unfold Spec.complete; simpl; repeat split; try discriminate; try lia; auto 10.

Lemma classify_total (norm : option string -> option string)
    (x : option string) (s : string) :
  norm x = Some s ->
  exists r, classify norm x = Ok r /\ Spec.complete r.
Proof.
  intros Hn. unfold_helpers. rewrite Hn. rewrite !orb_false_r.
  destruct ((s =? "main") || (s =? "master")) eqn:Emm.
  - assert (Hd : (s =? "develop") = false)
      by (apply orb_true_iff in Emm as [E|E];
          apply String.eqb_eq in E; subst; reflexivity).
    rewrite Hd.
    eexists; split; [reflexivity|].
    solve_complete.
  - destruct (s =? "develop") eqn:Ed.
    + eexists; split; [reflexivity|].
      solve_complete.
    + destruct (String.prefix "feature/" s) eqn:Ef;
        [|destruct (String.prefix "hotfix/" s) eqn:Eh;
          [|destruct (String.prefix "release/" s) eqn:Er]];
        (eexists; split; [reflexivity|]);
        solve_complete.
Qed.

(** C7: for every string s, the empty one included, classification
    returns a record - it does not throw - and every derived field of the
    record is present; this holds for the current Jenkinsfile and for the
    earlier one, whose helpers do not replace an empty name. *)
Theorem C7_classify_total (s : string) :
  (exists r, Pipeline.classify (Some s) = Ok r /\ Spec.complete r)
  /\ (exists r, EarlierPipeline.classify (Some s) = Ok r /\ Spec.complete r).
Proof.
  split.
  - apply (classify_total Pipeline.norm (Some s) (elvis (Some s) "unknown")).
    reflexivity.
  - apply (classify_total EarlierPipeline.norm (Some s) s). reflexivity.
Qed.

(** The current helpers accept an absent name too, the earlier ones throw
    on it: the string input of C7 is needed there. *)
Example classify_absent_name :
  Pipeline.classify None = Ok Spec.defaultRecord
  /\ EarlierPipeline.classify None = Throw NullPointerException.
Proof. split; reflexivity. Qed.

(** ** Empty and absent names *)

(** C8, as the code has it: the pipeline classifies "" exactly as
    "unknown", and an absent name as well: all three get the default
    record (type Unknown, environment "development"), nothing throws.  The
    demo server also treats an absent or empty name as "unknown", and its
    own environment rule then answers "unknown". *)
Theorem C8_empty_name_is_unknown :
  Pipeline.classify (Some "") = Pipeline.classify (Some "unknown")
  /\ Pipeline.classify None = Pipeline.classify (Some "unknown")
  /\ Pipeline.classify (Some "unknown") = Ok Spec.defaultRecord
  /\ App.branchName (Some "") = "unknown"
  /\ App.branchName None = "unknown"
  /\ App.environment (Some "") = App.environment (Some "unknown")
  /\ App.environment None = App.environment (Some "unknown")
  /\ App.environment (Some "unknown") = "unknown".
Proof. repeat split. Qed.

(** C8 as stated fails on the demo server: started with an empty
    BRANCH_NAME it takes the name "unknown" and derives the environment
    "unknown" from it, not "development". *)
Lemma C8_server_empty_name_environment :
  App.branchName (Some "") = "unknown"
  /\ App.environment (Some "") = "unknown"
  /\ App.environment (Some "") <> "development".
Proof. repeat split. discriminate. Qed.

(** ** The scripted test runner *)

(** The loop leaves by its own condition: any fuel that covers the
    remaining iterations gives the lines for [i], ..., [n]. *)
Lemma testLoop_lines (n fuel i : nat) (out : list string) :
  n + 1 <= i + fuel ->
  AppTest.testLoop fuel i n out
  = out +++ map (fun j => AppTest.testLine j n) (seq i (n + 1 - i)).
Proof.
  revert i out; induction fuel as [|fuel IH]; intros i out H; simpl.
  - replace (n + 1 - i) with 0 by lia. simpl. now rewrite app_nil_r.
  - destruct (Nat.leb_spec i n) as [Hle|Hgt].
    + rewrite IH by lia. unfold AppTest.consoleLog.
      replace (n + 1 - i) with (S (n + 1 - S i)) by lia.
      simpl. now rewrite <- app_assoc.
    + replace (n + 1 - i) with 0 by lia. simpl. now rewrite app_nil_r.
Qed.

Lemma run_log (BRANCH_NAME : option string) (cfg : AppTest.config) :
  AppTest.selectConfig (elvis BRANCH_NAME "unknown") = Some cfg ->
  AppTest.run BRANCH_NAME
  = Ok ([ "Running tests for branch: " ++ elvis BRANCH_NAME "unknown";
          "Test configuration for " ++ AppTest.environment cfg ++ ":";
          "- Test count: " ++ showNat (AppTest.testCount cfg);
          "- Integration tests: "
            ++ (if AppTest.skipIntegrationTests cfg then "disabled" else "enabled") ]
        +++ map (fun i => AppTest.testLine i (AppTest.testCount cfg))
              (seq 1 (AppTest.testCount cfg))
        +++ (if AppTest.skipIntegrationTests cfg then []
             else "🔗 Running integration tests..." :: AppTest.integrationLines)
        +++ [ "🎉 All tests passed for branch: " ++ elvis BRANCH_NAME "unknown" ]).
Proof.
  intros Hsel. unfold AppTest.run. rewrite Hsel. unfold AppTest.defined, bind.
  rewrite testLoop_lines by lia.
  replace (AppTest.testCount cfg + 1 - 1) with (AppTest.testCount cfg) by lia.
  unfold AppTest.consoleLog, AppTest.integrationLines.
  destruct (AppTest.skipIntegrationTests cfg); simpl;
    repeat rewrite <- app_assoc; simpl; reflexivity.
Qed.

(** C9: for every branch name the runner selects its configuration
    (main/master: 15 tests with integration tests; develop: 12 with;
    prefix hotfix/: 10 with; any other name: the feature default, 8 tests
    and integration tests skipped), logs exactly testCount lines
    "Test i/N: PASSED" for i = 1..testCount (each behind a check-mark), and
    logs the three fixed integration-test lines if and only if
    skipIntegrationTests is false for that configuration. *)
Theorem C9_test_runner_output (BRANCH_NAME : option string) :
  let b := elvis BRANCH_NAME "unknown" in
  let cfg :=
    if (b =? "main") || (b =? "master") then AppTest.mkConfig 15 "production" false
    else if b =? "develop" then AppTest.mkConfig 12 "staging" false
    else if String.prefix "hotfix/" b then AppTest.mkConfig 10 "hotfix" false
    else AppTest.mkConfig 8 "development" true in
  let n := AppTest.testCount cfg in
  let skip := AppTest.skipIntegrationTests cfg in
  let header :=
    [ "Running tests for branch: " ++ b;
      "Test configuration for " ++ AppTest.environment cfg ++ ":";
      "- Test count: " ++ showNat n;
      "- Integration tests: " ++ (if skip then "disabled" else "enabled") ] in
  let tests :=
    map (fun i => "✅ Test " ++ showNat i ++ "/" ++ showNat n ++ ": PASSED") (seq 1 n) in
  let footer := [ "🎉 All tests passed for branch: " ++ b ] in
  AppTest.selectConfig b = Some cfg
  /\ List.length tests = n
  /\ AppTest.run BRANCH_NAME
     = Ok (header +++ tests
           +++ (if skip then []
                else "🔗 Running integration tests..." :: AppTest.integrationLines)
           +++ footer)
  /\ forall out, AppTest.run BRANCH_NAME = Ok out ->
       ((forall l, In l AppTest.integrationLines -> In l out) <-> skip = false).
Proof.
  intros b cfg n skip header tests footer.
  assert (Hsel : AppTest.selectConfig b = Some cfg).
  { unfold AppTest.selectConfig; subst cfg.
    destruct ((b =? "main") || (b =? "master")); [reflexivity|].
    destruct (b =? "develop"); [reflexivity|].
    destruct (String.prefix "hotfix/" b); reflexivity. }
  split; [exact Hsel|]. split; [subst tests; now rewrite length_map, length_seq|].
  assert (Hrun := run_log BRANCH_NAME cfg Hsel).
  split; [exact Hrun|].
  assert (Hnot : forall l, In l AppTest.integrationLines ->
                   ~ In l (header +++ tests +++ footer)).
  { intros l Hl Hin.
    assert (Hpre : String.prefix "✅ I" l = true)
      by (simpl in Hl; repeat destruct Hl as [<-|Hl]; try reflexivity; contradiction).
    rewrite !in_app_iff in Hin. destruct Hin as [Hin|[Hin|Hin]].
    - simpl in Hin. repeat destruct Hin as [<-|Hin]; try discriminate; contradiction.
    - subst tests. apply in_map_iff in Hin as (i & <- & _). discriminate.
    - simpl in Hin. destruct Hin as [<-|[]]. discriminate. }
  intros out Hout.
  match type of Hrun with
  | _ = Ok ?log => assert (Heq : out = log) by congruence
  end.
  subst out header footer skip. split.
  - intros Hall. destruct (AppTest.skipIntegrationTests cfg) eqn:Eskip; [|reflexivity].
    exfalso. apply (Hnot _ (or_introl eq_refl)).
    exact (Hall _ (or_introl eq_refl)).
  - intros -> l Hl. rewrite !in_app_iff. right; right; left. right; exact Hl.
Qed.

Lemma C9_test_runner_witness :
  AppTest.run (Some "hotfix/cve-7")
  = Ok [ "Running tests for branch: hotfix/cve-7";
         "Test configuration for hotfix:";
         "- Test count: 10";
         "- Integration tests: enabled";
         "✅ Test 1/10: PASSED"; "✅ Test 2/10: PASSED"; "✅ Test 3/10: PASSED";
         "✅ Test 4/10: PASSED"; "✅ Test 5/10: PASSED"; "✅ Test 6/10: PASSED";
         "✅ Test 7/10: PASSED"; "✅ Test 8/10: PASSED"; "✅ Test 9/10: PASSED";
         "✅ Test 10/10: PASSED";
         "🔗 Running integration tests...";
         "✅ Integration Test 1: API connectivity - PASSED";
         "✅ Integration Test 2: Database connection - PASSED";
         "✅ Integration Test 3: External service - PASSED";
         "🎉 All tests passed for branch: hotfix/cve-7" ]
  /\ (forall l, In l AppTest.integrationLines ->
        exists out, AppTest.run (Some "hotfix/cve-7") = Ok out /\ In l out)
  /\ AppTest.selectConfig "release/2.0" = Some (AppTest.mkConfig 8 "development" true).
Proof.
  split; [reflexivity|]. split.
  - destruct (C9_test_runner_output (Some "hotfix/cve-7"))
      as (_ & _ & Hrun & Hiff).
    intros l Hl. eexists. split; [exact Hrun|].
    exact (proj2 (Hiff _ Hrun) eq_refl l Hl).
  - exact (proj1 (C9_test_runner_output (Some "release/2.0"))).
Defined.

(** ** The demo HTTP server *)

(** C10: whatever the request, the handler answers with status 200 and
    the header Content-Type: application/json; every URL other than
    "/health" and "/info" - not only "/" - gets the root body with the
    members message, branch, build, environment, timestamp and endpoints.
    No request leads to another status. *)
Theorem C10_server_always_200 (BRANCH_NAME BUILD_NUMBER : option string)
    (now : string) (req : App.incomingMessage) :
  let res := App.handler BRANCH_NAME BUILD_NUMBER now req App.freshResponse in
  App.statusCode res = Some 200
  /\ App.headers res = [("Content-Type", "application/json")]
  /\ (exists v indent, App.body res = Some (App.Stringify v indent))
  /\ (App.url req <> "/health" -> App.url req <> "/info" ->
      App.body res
      = Some (App.Stringify
                (App.JObject
                   [ ("message", App.JString "Hello from Multi-Branch Pipeline Demo!");
                     ("branch", App.JString (elvis BRANCH_NAME "unknown"));
                     ("build", App.JString (elvis BUILD_NUMBER "unknown"));
                     ("environment",
                      App.JString (App.getBranchEnvironment (elvis BRANCH_NAME "unknown")));
                     ("timestamp", App.JString now);
                     ("endpoints", App.JObject [ ("health", App.JString "/health");
                                                 ("info", App.JString "/info") ]) ])
                (Some 2))).
Proof.
  intros res. subst res. unfold App.handler.
  destruct (String.eqb_spec (App.url req) "/health") as [Hh|Hh];
    [|destruct (String.eqb_spec (App.url req) "/info") as [Hi|Hi]];
    (split; [reflexivity|]); (split; [reflexivity|]);
    (split; [do 2 eexists; reflexivity|]); intros H1 H2;
    try contradiction; reflexivity.
Qed.

Lemma C10_server_witness :
  App.url (App.mkRequest "POST" "/no/such/page") <> "/health"
  /\ App.url (App.mkRequest "POST" "/no/such/page") <> "/info"
  /\ App.statusCode
       (App.handler (Some "develop") (Some "7") "2024-01-01T00:00:00.000Z"
          (App.mkRequest "POST" "/no/such/page") App.freshResponse) = Some 200
  /\ option_map (fun p => match p with App.Stringify v _ => App.keys v end)
       (App.body
          (App.handler (Some "develop") (Some "7") "2024-01-01T00:00:00.000Z"
             (App.mkRequest "POST" "/no/such/page") App.freshResponse))
     = Some ["message"; "branch"; "build"; "environment"; "timestamp"; "endpoints"].
Proof.
  assert (H1 : App.url (App.mkRequest "POST" "/no/such/page") <> "/health")
    by discriminate.
  assert (H2 : App.url (App.mkRequest "POST" "/no/such/page") <> "/info")
    by discriminate.
  destruct (C10_server_always_200 (Some "develop") (Some "7")
              "2024-01-01T00:00:00.000Z" (App.mkRequest "POST" "/no/such/page"))
    as (Hs & _ & _ & Hb).
  split; [exact H1|]. split; [exact H2|]. split; [exact Hs|].
  rewrite (Hb H1 H2). reflexivity.
Defined.

(** * Further properties of the code *)

(** ** The helpers taken together *)

Ltac unfold_pipeline :=
  unfold Pipeline.getBranchEnvironment, Pipeline.shouldDeploy,
    Pipeline.getBranchTimeout, Pipeline.getBranchBuildRetention,
    Pipeline.getBranchSlackChannel, Pipeline.getBranchType,
    Pipeline.getBranchAgent, Pipeline.autoDeployGuard,
    EarlierPipeline.getBranchEnvironment, EarlierPipeline.shouldDeploy,
    EarlierPipeline.getBranchTimeout, EarlierPipeline.getBranchBuildRetention,
    EarlierPipeline.getBranchSlackChannel, EarlierPipeline.getBranchType,
    EarlierPipeline.getBranchAgent,
    getBranchAgent;
  unfold_helpers.

(** The main/master test of a name excludes the develop test and the
    feature and hotfix prefixes; the prefixes exclude one another. *)
Lemma main_master_exclusive (s : string) :
  (s =? "main") || (s =? "master") = true ->
  (s =? "develop") = false
  /\ String.prefix "feature/" s = false
  /\ String.prefix "hotfix/" s = false
  /\ String.prefix "release/" s = false.
Proof.
  intros H. apply orb_true_iff in H as [H|H];
    apply String.eqb_eq in H; subst; repeat split.
Qed.

Lemma develop_exclusive (s : string) :
  (s =? "develop") = true ->
  String.prefix "feature/" s = false
  /\ String.prefix "hotfix/" s = false
  /\ String.prefix "release/" s = false.
Proof. intros H. apply String.eqb_eq in H; subst; repeat split. Qed.

Lemma feature_exclusive (s : string) :
  String.prefix "feature/" s = true ->
  String.prefix "hotfix/" s = false /\ String.prefix "release/" s = false.
Proof. intros H. destruct (prefix_split _ _ H) as [r ->]. split; reflexivity. Qed.

Lemma hotfix_exclusive (s : string) :
  String.prefix "hotfix/" s = true -> String.prefix "release/" s = false.
Proof. intros H. destruct (prefix_split _ _ H) as [r ->]. reflexivity. Qed.

(** Case analysis on a name, in the order of the rules. *)
Ltac by_rule s :=
  let E := fresh "Emm" in
  let D := fresh "Edev" in
  let F := fresh "Efeat" in
  let H := fresh "Ehot" in
  let R := fresh "Erel" in
  destruct ((s =? "main") || (s =? "master")) eqn:E;
  [ destruct (main_master_exclusive s E) as (D & F & H & R)
  | destruct (s =? "develop") eqn:D;
    [ destruct (develop_exclusive s D) as (F & H & R)
    | destruct (String.prefix "feature/" s) eqn:F;
      [ destruct (feature_exclusive s F) as (H & R)
      | destruct (String.prefix "hotfix/" s) eqn:H;
        [ pose proof (hotfix_exclusive s H) as R
        | destruct (String.prefix "release/" s) eqn:R ] ] ] ].

(** X1: timeout, retention, channel, agent label and quality gate always
    name the same tier of a branch: the production tier for "main" and
    "master", the staging tier for "develop" and the development tier for
    every other name, an empty or absent one included. *)
Theorem helpers_agree_on_tier (BRANCH_NAME : option string) :
  let name := elvis BRANCH_NAME "unknown" in
  ( Pipeline.getBranchTimeout BRANCH_NAME,
    Pipeline.getBranchBuildRetention BRANCH_NAME,
    Pipeline.getBranchSlackChannel BRANCH_NAME,
    Pipeline.getBranchAgent BRANCH_NAME,
    Stages.qualityGate BRANCH_NAME )
  = if (name =? "main") || (name =? "master")
    then (Ok 60, Ok "50", Ok "#production-alerts", Ok "production-agent", "strict")
    else if name =? "develop"
    then (Ok 45, Ok "20", Ok "#staging-updates", Ok "staging-agent", "standard")
    else (Ok 30, Ok "10", Ok "#development", Ok "any", "standard").
Proof.
  intros name. subst name.
  unfold_pipeline. unfold Stages.qualityGate, isIn, existsb, equalsStr.
  destruct BRANCH_NAME as [s|]; simpl elvis; [|reflexivity].
  destruct (String.eqb_spec s "") as [->|_]; [reflexivity|].
  rewrite !orb_false_r.
  destruct ((s =? "main") || (s =? "master")); [reflexivity|].
  destruct (s =? "develop"); reflexivity.
Qed.

(** X2: branch type, target environment and DEPLOY_ENABLED always form
    one of six rows; in particular DEPLOY_ENABLED is 'true' exactly for the
    types Staging and Feature. *)
Theorem type_environment_deploy_table (BRANCH_NAME : option string) :
  exists ty env dep,
    Pipeline.getBranchType BRANCH_NAME = Ok ty
    /\ Pipeline.getBranchEnvironment BRANCH_NAME = Ok env
    /\ Pipeline.shouldDeploy BRANCH_NAME = Ok dep
    /\ In (ty, env, dep)
         [ ("Production", "production", "false");
           ("Staging", "staging", "true");
           ("Feature", "development", "true");
           ("Hotfix", "hotfix", "false");
           ("Release", "development", "false");
           ("Unknown", "development", "false") ].
Proof.
  unfold_pipeline. rewrite !orb_false_r.
  set (s := elvis BRANCH_NAME "unknown").
  by_rule s; rewrite ?Edev, ?Efeat, ?Ehot, ?Erel;
    do 3 eexists; repeat (split; [reflexivity|]); simpl; auto 10.
Qed.

(** ** The two versions of the helpers *)

(** X3: on a non-empty name the helpers of the two Jenkinsfile versions
    return the same; the classification is the same on the empty name too. *)
Theorem versions_agree_on_names (s : string) (BUILD_NUMBER : option string) :
  Pipeline.classify (Some s) = EarlierPipeline.classify (Some s)
  /\ (s <> "" ->
      Pipeline.validateBranchName (Some s) = EarlierPipeline.validateBranchName (Some s)
      /\ Pipeline.createDockerTag (Some s) BUILD_NUMBER
         = EarlierPipeline.createDockerTag (Some s) BUILD_NUMBER
      /\ Pipeline.shouldDeploy (Some s) = EarlierPipeline.shouldDeploy (Some s)
      /\ Pipeline.getBranchAgent (Some s) = EarlierPipeline.getBranchAgent (Some s)).
Proof.
  split.
  - destruct (String.eqb_spec s "") as [->|Hne]; [reflexivity|].
    unfold Pipeline.classify, EarlierPipeline.classify, classify,
      getBranchType, getBranchEnvironment, autoDeployGuard, shouldDeploy,
      getBranchTimeout, getBranchBuildRetention, getBranchSlackChannel,
      Pipeline.norm, EarlierPipeline.norm.
    now rewrite (elvis_nonempty _ _ Hne).
  - intros Hne.
    unfold Pipeline.validateBranchName, EarlierPipeline.validateBranchName,
      Pipeline.createDockerTag, EarlierPipeline.createDockerTag,
      Pipeline.shouldDeploy, EarlierPipeline.shouldDeploy,
      Pipeline.getBranchAgent, EarlierPipeline.getBranchAgent,
      validateBranchName, createDockerTag, shouldDeploy, getBranchAgent,
      Pipeline.norm, EarlierPipeline.norm.
    rewrite (elvis_nonempty _ _ Hne). repeat split.
Qed.

Lemma versions_agree_witness :
  Pipeline.classify (Some "") = EarlierPipeline.classify (Some "")
  /\ Pipeline.createDockerTag (Some "Feature/A_b") (Some "7")
     = EarlierPipeline.createDockerTag (Some "Feature/A_b") (Some "7")
  /\ EarlierPipeline.createDockerTag (Some "Feature/A_b") (Some "7") = Ok "feature-a-b-7".
Proof.
  destruct (versions_agree_on_names "Feature/A_b" (Some "7")) as (_ & H).
  destruct H as (_ & Htag & _); [discriminate|].
  split; [exact (proj1 (versions_agree_on_names "" None))|].
  split; [exact Htag | reflexivity].
Defined.

(** X4: the versions part on the empty name and on an absent one.  The
    current helpers answer for "unknown"; the earlier ones tag and validate
    the empty name itself, and on an absent name those that call a method of
    the name throw, while those that only switch on it take their default. *)
Theorem versions_differ_on_empty_and_absent (BUILD_NUMBER : string) :
  Pipeline.createDockerTag (Some "") (Some BUILD_NUMBER) = Ok ("unknown-" ++ BUILD_NUMBER)
  /\ EarlierPipeline.createDockerTag (Some "") (Some BUILD_NUMBER) = Ok ("-" ++ BUILD_NUMBER)
  /\ Pipeline.createDockerTag None (Some BUILD_NUMBER) = Ok ("unknown-" ++ BUILD_NUMBER)
  /\ EarlierPipeline.createDockerTag None (Some BUILD_NUMBER) = Throw NullPointerException
  /\ EarlierPipeline.getBranchEnvironment None = Throw NullPointerException
  /\ EarlierPipeline.getBranchType None = Throw NullPointerException
  /\ EarlierPipeline.shouldDeploy None = Throw NullPointerException
  /\ EarlierPipeline.validateBranchName None = Throw NullPointerException
  /\ EarlierPipeline.getBranchTimeout None = Ok 30
  /\ EarlierPipeline.getBranchBuildRetention None = Ok "10"
  /\ EarlierPipeline.getBranchSlackChannel None = Ok "#development"
  /\ EarlierPipeline.getBranchAgent None = Ok "any"
  /\ (exists warning rest,
        EarlierPipeline.validateBranchName (Some "") = Ok (warning :: rest)
        /\ Pipeline.validateBranchName (Some "") <> EarlierPipeline.validateBranchName (Some "")).
Proof.
  repeat split. do 2 eexists. split; [reflexivity | discriminate].
Qed.

(** X5: no helper of the current Jenkinsfile throws, whatever the branch
    name and build number, absent ones included. *)
Theorem current_helpers_never_throw (BRANCH_NAME BUILD_NUMBER : option string) :
  (exists v, Pipeline.getBranchEnvironment BRANCH_NAME = Ok v)
  /\ (exists v, Pipeline.getBranchType BRANCH_NAME = Ok v)
  /\ (exists v, Pipeline.shouldDeploy BRANCH_NAME = Ok v)
  /\ (exists v, Pipeline.validateBranchName BRANCH_NAME = Ok v)
  /\ (exists v, Pipeline.createDockerTag BRANCH_NAME BUILD_NUMBER = Ok v)
  /\ (exists v, Pipeline.classify BRANCH_NAME = Ok v /\ Spec.complete v).
Proof.
  assert (Hc := classify_total Pipeline.norm BRANCH_NAME
                  (elvis BRANCH_NAME "unknown") eq_refl).
  destruct Hc as (r & Hr & Hcomplete).
  repeat split; [| | | | |exists r; now split].
  - unfold_pipeline. set (s := elvis BRANCH_NAME "unknown").
    by_rule s; rewrite ?Edev, ?Efeat, ?Ehot; eexists; reflexivity.
  - unfold_pipeline. rewrite !orb_false_r. set (s := elvis BRANCH_NAME "unknown").
    by_rule s; rewrite ?Edev, ?Efeat, ?Ehot, ?Erel; eexists; reflexivity.
  - unfold_pipeline. rewrite !orb_false_r. set (s := elvis BRANCH_NAME "unknown").
    by_rule s; rewrite ?Edev, ?Efeat; eexists; reflexivity.
  - unfold Pipeline.validateBranchName, validateBranchName, Pipeline.norm.
    rewrite anyStartsWith_existsb. unfold bind.
    destruct (negb _); eexists; reflexivity.
  - unfold Pipeline.createDockerTag, createDockerTag, Pipeline.norm,
      replaceAllOutsideTagClass, bind. eexists; reflexivity.
Qed.

(** ** The stage guards *)

Lemma autoDeploy_name (BRANCH_NAME : option string) :
  Pipeline.autoDeployGuard BRANCH_NAME = Ok true ->
  exists s, BRANCH_NAME = Some s
            /\ (s = "develop" \/ exists r, s = "feature/" ++ r).
Proof.
  unfold Pipeline.autoDeployGuard, autoDeployGuard, shouldDeploy, Pipeline.norm,
    isIn, existsb, equalsStr, startsWith, bind.
  destruct BRANCH_NAME as [s|]; [|discriminate].
  destruct (String.eqb_spec s "") as [->|Hne]; [discriminate|].
  rewrite (elvis_nonempty _ _ Hne), orb_false_r.
  intros H. exists s. split; [reflexivity|].
  destruct (String.eqb_spec s "develop") as [->|_]; [now left|].
  destruct (String.prefix "feature/" s) eqn:Ef; [|discriminate].
  right. exact (prefix_split _ _ Ef).
Qed.

(** X6: a deploy stage runs only where stage 'Docker Build' ran, so the
    image and [env.DOCKER_TAG] it uses exist: the guard of 'Auto Deploy' and
    the guard of 'Production Deploy' each imply the guard of 'Docker Build'. *)
Theorem deploy_implies_docker_build (params : Stages.parameters)
    (BRANCH_NAME : option string) :
  Pipeline.autoDeployGuard BRANCH_NAME = Ok true
  \/ Stages.productionDeployWhen params BRANCH_NAME = true ->
  Stages.dockerBuildWhen BRANCH_NAME = true.
Proof.
  unfold Stages.dockerBuildWhen, Stages.productionDeployWhen.
  intros [H|H].
  - unfold Pipeline.autoDeployGuard, autoDeployGuard in H.
    destruct (shouldDeploy Pipeline.norm BRANCH_NAME) as [d|e]; [|discriminate].
    unfold bind in H. injection H as H.
    apply andb_true_iff in H as [_ H].
    apply orb_true_iff in H as [H|H].
    + rewrite H, !orb_true_r. reflexivity.
    + apply andb_true_iff in H as [H _]. rewrite H, !orb_true_r. reflexivity.
  - apply andb_true_iff in H as [H _]. now rewrite H.
Qed.

Lemma deploy_implies_docker_build_witness :
  Stages.dockerBuildWhen (Some "feature/login") = true
  /\ Stages.dockerBuildWhen (Some "master") = true.
Proof.
  split.
  - apply (deploy_implies_docker_build (Stages.mkParameters false true false false)).
    left; reflexivity.
  - apply (deploy_implies_docker_build (Stages.mkParameters true true false false)).
    right; reflexivity.
Defined.

(** X7: 'Auto Deploy' and 'Production Deploy' never run in the same
    build, and 'Auto Deploy' runs for the types Staging and Feature only,
    that is towards the environments staging and development. *)
Theorem auto_deploy_never_production (params : Stages.parameters)
    (BRANCH_NAME : option string) :
  Pipeline.autoDeployGuard BRANCH_NAME = Ok true ->
  Stages.productionDeployWhen params BRANCH_NAME = false
  /\ exists r, Pipeline.classify BRANCH_NAME = Ok r
               /\ autoDeployEligible r = true
               /\ In (branchType r, environment r)
                    [ ("Staging", "staging"); ("Feature", "development") ].
Proof.
  intros H. destruct (autoDeploy_name _ H) as (s & -> & [->|[r ->]]).
  - split; [reflexivity|]. eexists; split; [reflexivity|]. simpl; auto.
  - assert (Hmain : Jenkins.branch "main" (Some ("feature/" ++ r)) = false)
      by reflexivity.
    assert (Hmaster : Jenkins.branch "master" (Some ("feature/" ++ r)) = false)
      by reflexivity.
    split; [unfold Stages.productionDeployWhen; now rewrite Hmain, Hmaster|].
    unfold Pipeline.classify, classify. fold (Pipeline.autoDeployGuard (Some ("feature/" ++ r))).
    rewrite H. unfold_helpers. simpl. rewrite prefix_empty.
    eexists; split; [reflexivity|]. simpl; auto.
Qed.

Lemma auto_deploy_never_production_witness :
  Stages.productionDeployWhen (Stages.mkParameters true true false false)
    (Some "develop") = false.
Proof.
  apply (auto_deploy_never_production (Stages.mkParameters true true false false)
           (Some "develop")).
  reflexivity.
Defined.

(** X8: for a hotfix/ or release/ branch no image is built and nothing is
    deployed, whatever the parameters; its integration tests always run. *)
Theorem hotfix_release_never_deployed (params : Stages.parameters) (s : string) :
  String.prefix "hotfix/" s = true \/ String.prefix "release/" s = true ->
  Stages.dockerBuildWhen (Some s) = false
  /\ Pipeline.autoDeployGuard (Some s) = Ok false
  /\ Stages.productionDeployWhen params (Some s) = false
  /\ Stages.integrationTestsWhen params (Some s) = true.
Proof.
  intros [H|H]; destruct (prefix_split _ _ H) as [r ->]; repeat split.
Qed.

Lemma hotfix_release_never_deployed_witness :
  Stages.dockerBuildWhen (Some "hotfix/cve-7") = false
  /\ Pipeline.autoDeployGuard (Some "release/2.0") = Ok false.
Proof.
  split.
  - apply (hotfix_release_never_deployed (Stages.mkParameters true true true false)
             "hotfix/cve-7"). left; reflexivity.
  - apply (hotfix_release_never_deployed (Stages.mkParameters true true true false)
             "release/2.0"). right; reflexivity.
Defined.

(** ** The parameter checks of stage 'Environment Setup' *)

(** X9: on a branch name that is a string the checks never throw and
    echo the heading and at most two of the three messages; on an absent
    name they throw exactly when RUN_PERFORMANCE_TESTS is set (its default),
    because that check calls [startsWith] on the name itself. *)
Theorem parameter_checks_null_safety (params : Stages.parameters) :
  (forall s, exists out,
      Stages.parameterValidation params (Some s)
      = Ok ("📋 Parameter Validation:" :: out)
      /\ List.length out <= 2)
  /\ (Stages.parameterValidation params None = Throw NullPointerException
      <-> Stages.RUN_PERFORMANCE_TESTS params = true).
Proof.
  destruct params as [dep perf skip dbg]. split.
  - intros s. unfold Stages.parameterValidation, startsWith, bind,
      isIn, existsb, equalsStr. simpl Stages.DEPLOY_TO_PRODUCTION.
    simpl Stages.RUN_PERFORMANCE_TESTS. simpl Stages.SKIP_INTEGRATION_TESTS.
    rewrite !orb_false_r.
    destruct ((s =? "main") || (s =? "master")) eqn:Emm.
    + destruct (main_master_exclusive s Emm) as (_ & Ef & _). rewrite Ef.
      rewrite andb_false_r, andb_true_r.
      destruct perf, skip; eexists; (split; [reflexivity|]); simpl; lia.
    + rewrite andb_false_r, andb_true_r.
      destruct dep, perf; simpl; try destruct (String.prefix "feature/" s);
        eexists; (split; [reflexivity|]); simpl; lia.
  - unfold Stages.parameterValidation, startsWith, bind. simpl.
    destruct perf; split; intros H; try reflexivity; try discriminate.
Qed.

(** X10: the parameter checks against the stage guards.  When the
    checks warn that skipping integration tests is not recommended for a
    production branch, the 'Integration Tests' stage runs all the same, as
    SKIP_INTEGRATION_TESTS acts on feature branches only.  When
    DEPLOY_TO_PRODUCTION is set and the checks do not warn about it, the
    'Production Deploy' stage runs. *)
Theorem parameter_checks_and_stages (params : Stages.parameters)
    (BRANCH_NAME : option string) (out : list string) :
  Stages.parameterValidation params BRANCH_NAME = Ok out ->
  (In "⚠️ Warning: Skipping integration tests is not recommended for production branches" out ->
   Stages.integrationTestsWhen params BRANCH_NAME = true)
  /\ (Stages.DEPLOY_TO_PRODUCTION params = true ->
      ~ In "⚠️ Warning: DEPLOY_TO_PRODUCTION is only recommended for main/master branches" out ->
      Stages.productionDeployWhen params BRANCH_NAME = true).
Proof.
  destruct params as [dep perf skip dbg].
  unfold Stages.parameterValidation, Stages.integrationTestsWhen,
    Stages.productionDeployWhen, startsWith, bind, isIn, existsb, equalsStr.
  simpl Stages.DEPLOY_TO_PRODUCTION. simpl Stages.RUN_PERFORMANCE_TESTS.
  simpl Stages.SKIP_INTEGRATION_TESTS.
  destruct BRANCH_NAME as [s|].
  - rewrite !orb_false_r.
    destruct ((s =? "main") || (s =? "master")) eqn:Emm.
    + assert (Hglob : Jenkins.branch "feature/*" (Some s) = false
                      /\ Jenkins.branch "main" (Some s) || Jenkins.branch "master" (Some s) = true)
        by (apply orb_true_iff in Emm as [E|E]; apply String.eqb_eq in E;
            subst; split; reflexivity).
      destruct Hglob as [Hf Hm]. rewrite Hf, Hm.
      intros _. split; [reflexivity|]. intros ->. reflexivity.
    + rewrite andb_false_r, andb_true_r. intros Hout. split.
      * intros Hin. exfalso.
        destruct dep, perf; simpl in Hout;
          try destruct (String.prefix "feature/" s); injection Hout as <-;
          simpl in Hin; repeat destruct Hin as [Hin|Hin];
          try discriminate; try contradiction.
      * intros -> Hnot. exfalso. apply Hnot.
        destruct perf; simpl in Hout;
          try destruct (String.prefix "feature/" s); injection Hout as <-;
          simpl; auto.
  - simpl. rewrite andb_false_r, andb_true_r. intros Hout. split.
    + intros Hin. exfalso.
      destruct dep, perf; simpl in Hout; try discriminate; injection Hout as <-;
        simpl in Hin; repeat destruct Hin as [Hin|Hin];
        try discriminate; try contradiction.
    + intros -> Hnot. exfalso. apply Hnot.
      destruct perf; simpl in Hout; try discriminate; injection Hout as <-;
        simpl; auto.
Qed.

Lemma parameter_checks_and_stages_witness :
  Stages.integrationTestsWhen (Stages.mkParameters true true true false) (Some "main") = true
  /\ Stages.productionDeployWhen (Stages.mkParameters true true true false) (Some "main") = true.
Proof.
  destruct (parameter_checks_and_stages (Stages.mkParameters true true true false)
              (Some "main")
              [ "📋 Parameter Validation:";
                "⚠️ Warning: Skipping integration tests is not recommended for production branches" ]
              eq_refl) as [Hskip Hdeploy].
  split.
  - apply Hskip. right; left; reflexivity.
  - apply Hdeploy; [reflexivity|].
    intros [H|[H|[]]]; discriminate.
Defined.

(** ** The script of stage 'Build Application' *)

(** X11: for every branch name that is a string the build script runs
    [npm run build] after one install command, and that is
    [npm install --production] exactly for the types Production and Hotfix
    and plain [npm install] otherwise.  On an absent name the script
    throws, although the helpers would take it for 'unknown'. *)
Theorem build_commands_by_type (s : string) :
  (exists ty steps,
      Pipeline.getBranchType (Some s) = Ok ty
      /\ Stages.buildApplication Pipeline.norm (Some s) = Ok steps
      /\ (exists install rest,
            Obs.commandsOf steps = install :: ["npm"; "run"; "build"] :: rest
            /\ (ty = "Production" \/ ty = "Hotfix" ->
                install = ["npm"; "install"; "--production"])
            /\ (ty <> "Production" -> ty <> "Hotfix" ->
                install = ["npm"; "install"])))
  /\ Stages.buildApplication Pipeline.norm None = Throw NullPointerException.
Proof.
  split; [|reflexivity].
  destruct (String.eqb_spec s "") as [->|Hne].
  - do 2 eexists. repeat (split; [reflexivity|]).
    do 2 eexists. split; [reflexivity|].
    split; [intros [H|H]; discriminate | reflexivity].
  - unfold Stages.buildApplication. unfold_pipeline.
    rewrite (elvis_nonempty _ _ Hne), !orb_false_r.
    by_rule s; rewrite ?Edev, ?Efeat, ?Ehot, ?Erel;
      do 2 eexists; repeat (split; [reflexivity|]);
      do 2 eexists; (split; [reflexivity|]);
      (split; [intros [H|H]; try discriminate; reflexivity
              | intros H1 H2; try reflexivity; exfalso; auto]).
Qed.

Lemma build_commands_by_type_witness :
  exists steps,
    Stages.buildApplication Pipeline.norm (Some "hotfix/cve-7") = Ok steps
    /\ hd [] (Obs.commandsOf steps) = ["npm"; "install"; "--production"].
Proof.
  destruct (build_commands_by_type "hotfix/cve-7")
    as ((ty & steps & Hty & Hsteps & install & rest & Hcmds & Hprod & _) & _).
  exists steps. split; [exact Hsteps|].
  rewrite Hcmds. simpl. apply Hprod. right.
  assert (H : Ok ty = Ok "Hotfix") by (rewrite <- Hty; reflexivity).
  now injection H.
Defined.

(** ** The Docker tag and the image names *)

Lemma allChars_append (ok : ascii -> bool) (a b : string) :
  Obs.allChars ok (a ++ b) = Obs.allChars ok a && Obs.allChars ok b.
Proof.
  induction a as [|c a IH]; simpl; [reflexivity|].
  now rewrite IH, andb_assoc.
Qed.

Lemma allChars_mapChars (ok : ascii -> bool) (f : ascii -> ascii) (s : string) :
  (forall c, ok (f c) = true) -> Obs.allChars ok (mapChars f s) = true.
Proof.
  intros H. induction s as [|c s IH]; simpl; [reflexivity|].
  now rewrite H, IH.
Qed.

Lemma allChars_weaken (ok ok' : ascii -> bool) (s : string) :
  (forall c, ok c = true -> ok' c = true) ->
  Obs.allChars ok s = true -> Obs.allChars ok' s = true.
Proof.
  intros H. induction s as [|c s IH]; simpl; [reflexivity|].
  intros Hs. apply andb_true_iff in Hs as [Hc Hs].
  now rewrite (H _ Hc), (IH Hs).
Qed.

Lemma allChars_occurs (ok : ascii -> bool) (c : ascii) (s : string) :
  Obs.allChars ok s = true -> ok c = false -> Spec.occurs c s = false.
Proof.
  intros Hs Hc. induction s as [|d s IH]; simpl in *; [reflexivity|].
  apply andb_true_iff in Hs as [Hd Hs]. rewrite (IH Hs), orb_false_r.
  destruct (Ascii.eqb_spec c d) as [->|]; [congruence | reflexivity].
Qed.

Lemma occurs_append (c : ascii) (a b : string) :
  Spec.occurs c (a ++ b) = Spec.occurs c a || Spec.occurs c b.
Proof.
  induction a as [|d a IH]; simpl; [reflexivity|].
  now rewrite IH, orb_assoc.
Qed.

Lemma mapChars_mapChars (f g : ascii -> ascii) (s : string) :
  mapChars f (mapChars g s) = mapChars (fun c => f (g c)) s.
Proof. induction s as [|c s IH]; simpl; [reflexivity | now rewrite IH]. Qed.

Lemma mapChars_length (f : ascii -> ascii) (s : string) :
  String.length (mapChars f s) = String.length s.
Proof. induction s as [|c s IH]; simpl; [reflexivity | now rewrite IH]. Qed.

Lemma append_length (a b : string) :
  String.length (a ++ b) = String.length a + String.length b.
Proof. induction a as [|c a IH]; simpl; [reflexivity | now rewrite IH]. Qed.

Lemma string_of_uint_digits (d : Decimal.uint) :
  Obs.allChars Obs.isDigit (NilEmpty.string_of_uint d) = true.
Proof. induction d; simpl; auto. Qed.

Lemma showNat_digits (n : nat) : Obs.allChars Obs.isDigit (showNat n) = true.
Proof.
  unfold showNat, NilZero.string_of_uint.
  destruct (Nat.to_uint n) eqn:E; try reflexivity;
    rewrite <- E; apply string_of_uint_digits.
Qed.

Lemma digit_isTagChar (c : ascii) : Obs.isDigit c = true -> Obs.isTagChar c = true.
Proof. destruct c as [[] [] [] [] [] [] [] []]; simpl; intros H; try reflexivity; discriminate. Qed.

Lemma cleaned_isTagChar (c : ascii) :
  Obs.isTagChar (lowerChar (if inTagClass c then c else "-"%char)) = true.
Proof. destruct c as [[] [] [] [] [] [] [] []]; reflexivity. Qed.

Lemma cleaned_tagChar_fixed (c : ascii) :
  Obs.isTagChar c = true -> lowerChar (if inTagClass c then c else "-"%char) = c.
Proof. destruct c as [[] [] [] [] [] [] [] []]; simpl; intros H; try reflexivity; discriminate. Qed.

Lemma cleaned_ignores_case (c : ascii) :
  lowerChar (if inTagClass (lowerChar c) then lowerChar c else "-"%char)
  = lowerChar (if inTagClass c then c else "-"%char).
Proof. destruct c as [[] [] [] [] [] [] [] []]; reflexivity. Qed.

(** The tag as one pass over the name. *)
Lemma createDockerTag_pass (BRANCH_NAME BUILD_NUMBER : option string) :
  Pipeline.createDockerTag BRANCH_NAME BUILD_NUMBER
  = Ok (mapChars (fun c => lowerChar (if inTagClass c then c else "-"%char))
          (elvis BRANCH_NAME "unknown")
        ++ "-" ++ interp BUILD_NUMBER).
Proof.
  unfold Pipeline.createDockerTag, createDockerTag, Pipeline.norm,
    replaceAllOutsideTagClass, bind, toLowerCase.
  now rewrite mapChars_mapChars.
Qed.

Lemma docker_tag_chars (BRANCH_NAME : option string) (n : nat) :
  exists tag,
    Pipeline.createDockerTag BRANCH_NAME (Some (showNat n)) = Ok tag
    /\ Obs.allChars Obs.isTagChar tag = true.
Proof.
  eexists. split; [apply createDockerTag_pass|].
  rewrite !allChars_append. simpl interp.
  rewrite (allChars_mapChars _ _ _ cleaned_isTagChar).
  rewrite (allChars_weaken _ _ _ digit_isTagChar (showNat_digits n)).
  reflexivity.
Qed.

(** X12: whatever the branch name, the tag built with a run number
    consists of the characters a-z, 0-9, '.' and '-' only, and is as long
    as the name (or "unknown"), the hyphen and the number together: the
    cleaning replaces characters one for one and drops none. *)
Theorem docker_tag_alphabet_and_length (BRANCH_NAME : option string) (n : nat) :
  exists tag,
    Pipeline.createDockerTag BRANCH_NAME (Some (showNat n)) = Ok tag
    /\ Obs.allChars Obs.isTagChar tag = true
    /\ String.length tag
       = String.length (elvis BRANCH_NAME "unknown") + 1 + String.length (showNat n).
Proof.
  eexists. split; [apply createDockerTag_pass|]. split.
  - rewrite !allChars_append. simpl interp.
    rewrite (allChars_mapChars _ _ _ cleaned_isTagChar).
    rewrite (allChars_weaken _ _ _ digit_isTagChar (showNat_digits n)).
    reflexivity.
  - rewrite !append_length, mapChars_length. simpl. lia.
Qed.

(** X13: a non-empty name that is already made of a-z, 0-9, '.' and '-'
    is kept as it is: its tag is the name, a hyphen and the build number. *)
Theorem docker_tag_keeps_clean_name (s : string) (BUILD_NUMBER : string) :
  s <> "" -> Obs.allChars Obs.isTagChar s = true ->
  Pipeline.createDockerTag (Some s) (Some BUILD_NUMBER) = Ok (s ++ "-" ++ BUILD_NUMBER).
Proof.
  intros Hne Hs. rewrite createDockerTag_pass, (elvis_nonempty _ _ Hne).
  simpl interp. do 2 f_equal.
  clear Hne. induction s as [|c s IH]; simpl in *; [reflexivity|].
  apply andb_true_iff in Hs as [Hc Hs].
  now rewrite (cleaned_tagChar_fixed c Hc), (IH Hs).
Qed.

Lemma docker_tag_keeps_clean_name_witness :
  Pipeline.createDockerTag (Some "release-2.0") (Some "15") = Ok "release-2.0-15".
Proof.
  apply (docker_tag_keeps_clean_name "release-2.0" "15"); [discriminate | reflexivity].
Defined.

(** X14: the tag does not see the case of letters: two names that are
    equal after lower-casing get the same tag. *)
Theorem docker_tag_ignores_case (a b : string) (BUILD_NUMBER : option string) :
  toLowerCase a = toLowerCase b ->
  Pipeline.createDockerTag (Some a) BUILD_NUMBER
  = Pipeline.createDockerTag (Some b) BUILD_NUMBER.
Proof.
  intros H. rewrite !createDockerTag_pass.
  assert (Hlow : forall s,
             mapChars (fun c => lowerChar (if inTagClass c then c else "-"%char))
               (toLowerCase s)
             = mapChars (fun c => lowerChar (if inTagClass c then c else "-"%char)) s).
  { intros s. unfold toLowerCase. rewrite mapChars_mapChars.
    apply mapChars_ext, cleaned_ignores_case. }
  assert (Helvis : forall s,
             toLowerCase (elvis (Some s) "unknown")
             = elvis (Some (toLowerCase s)) "unknown")
    by (intros [|c s]; reflexivity).
  rewrite <- (Hlow (elvis (Some a) "unknown")), <- (Hlow (elvis (Some b) "unknown")).
  now rewrite !Helvis, H.
Qed.

Lemma docker_tag_ignores_case_witness :
  Pipeline.createDockerTag (Some "Feature/Login") (Some "3")
  = Pipeline.createDockerTag (Some "feature/LOGIN") (Some "3").
Proof.
  apply (docker_tag_ignores_case "Feature/Login" "feature/LOGIN"). reflexivity.
Defined.

(** X15: where stage 'Docker Build' runs, the branch name is a non-empty
    string, so the 'unknown' default is not taken there: the stored tag is
    the cleaned name itself with the run number. *)
Theorem docker_build_uses_the_name (BRANCH_NAME : option string) (n : nat) :
  Stages.dockerBuildWhen BRANCH_NAME = true ->
  exists s,
    BRANCH_NAME = Some s /\ s <> ""
    /\ Stages.dockerBuild Pipeline.norm BRANCH_NAME (Some (showNat n))
       = Ok (Stages.mkDockerNames
               (Spec.sanitizeTag s n)
               ("multi-branch-demo:" ++ Spec.sanitizeTag s n)
               ("multi-branch-demo:" ++ s ++ "-latest")).
Proof.
  intros H. destruct BRANCH_NAME as [s|]; [|discriminate].
  destruct (String.eqb_spec s "") as [->|Hne]; [discriminate|].
  exists s. repeat split; [exact Hne|].
  unfold Stages.dockerBuild.
  fold (Pipeline.createDockerTag (Some s) (Some (showNat n))).
  rewrite (createDockerTag_nonempty s n Hne). reflexivity.
Qed.

Lemma docker_build_uses_the_name_witness :
  exists s,
    Some "develop" = Some s /\ s <> ""
    /\ Stages.dockerBuild Pipeline.norm (Some "develop") (Some (showNat 12))
       = Ok (Stages.mkDockerNames
               (Spec.sanitizeTag s 12)
               ("multi-branch-demo:" ++ Spec.sanitizeTag s 12)
               ("multi-branch-demo:" ++ s ++ "-latest")).
Proof. apply (docker_build_uses_the_name (Some "develop") 12). reflexivity. Defined.

(** X16: the second image name of stage 'Docker Build', the "-latest"
    one, is written with the branch name as it is: it contains a '/'
    whenever the name does - so for every feature branch - while the
    cleaned tag never contains one. *)
Theorem latest_image_keeps_slash (s : string) (n : nat) :
  exists names,
    Stages.dockerBuild Pipeline.norm (Some s) (Some (showNat n)) = Ok names
    /\ Spec.occurs "/" (Stages.DOCKER_TAG names) = false
    /\ Spec.occurs "/" (Stages.builtImage names) = false
    /\ Spec.occurs "/" (Stages.latestImage names) = Spec.occurs "/" s
    /\ (String.prefix "feature/" s = true ->
        Spec.occurs "/" (Stages.latestImage names) = true).
Proof.
  unfold Stages.dockerBuild.
  fold (Pipeline.createDockerTag (Some s) (Some (showNat n))).
  destruct (docker_tag_chars (Some s) n) as (tag & Htag & Hchars).
  rewrite Htag. unfold bind. eexists. split; [reflexivity|].
  assert (Hno : Spec.occurs "/" tag = false)
    by (apply (allChars_occurs _ _ _ Hchars); reflexivity).
  simpl Stages.DOCKER_TAG. simpl Stages.builtImage. simpl Stages.latestImage.
  unfold Stages.DOCKER_IMAGE.
  assert (Hlatest : Spec.occurs "/" ("multi-branch-demo" ++ ":" ++ s ++ "-latest")
                    = Spec.occurs "/" s).
  { rewrite !occurs_append. simpl. now rewrite orb_false_r. }
  repeat split.
  - exact Hno.
  - simpl. exact Hno.
  - exact Hlatest.
  - intros Hf. etransitivity; [exact Hlatest|].
    destruct (prefix_split _ _ Hf) as [r ->]. reflexivity.
Qed.

Lemma latest_image_keeps_slash_witness :
  exists names,
    Stages.dockerBuild Pipeline.norm (Some "feature/login") (Some (showNat 4)) = Ok names
    /\ Stages.latestImage names = "multi-branch-demo:feature/login-latest"
    /\ Spec.occurs "/" (Stages.latestImage names) = true.
Proof.
  destruct (latest_image_keeps_slash "feature/login" 4)
    as (names & Hn & _ & _ & _ & Hf).
  exists names. split; [exact Hn|]. split; [|apply Hf; reflexivity].
  assert (H : Ok names = Ok (Stages.mkDockerNames "feature-login-4"
                               "multi-branch-demo:feature-login-4"
                               "multi-branch-demo:feature/login-latest"))
    by (rewrite <- Hn; reflexivity).
  injection H as ->. reflexivity.
Defined.

(** ** The three copies of the environment rule *)

(** X17: the demo server's environment against the pipeline's.  The
    server answers one of five names; it agrees with the pipeline's
    TARGET_ENVIRONMENT on every branch of type Production, Staging, Feature
    or Hotfix, and on the types Release and Unknown it says "unknown" where
    the pipeline says "development". *)
Theorem server_environment_vs_pipeline (BRANCH_NAME : option string) :
  exists ty env,
    Pipeline.getBranchType BRANCH_NAME = Ok ty
    /\ Pipeline.getBranchEnvironment BRANCH_NAME = Ok env
    /\ In (App.environment BRANCH_NAME)
         ["production"; "staging"; "development"; "hotfix"; "unknown"]
    /\ (ty = "Release" \/ ty = "Unknown" ->
        env = "development" /\ App.environment BRANCH_NAME = "unknown")
    /\ (ty <> "Release" -> ty <> "Unknown" -> App.environment BRANCH_NAME = env).
Proof.
  unfold App.environment, App.branchName, App.getBranchEnvironment.
  unfold_pipeline. rewrite !orb_false_r.
  set (s := elvis BRANCH_NAME "unknown").
  by_rule s; rewrite ?Edev, ?Efeat, ?Ehot, ?Erel;
    do 2 eexists; repeat (split; [reflexivity|]);
    (split; [simpl; auto 10|]);
    (split; [intros [H|H]; try discriminate; split; reflexivity
            | intros H1 H2; try reflexivity; exfalso; auto]).
Qed.

(** X18: the test runner's configuration names the pipeline's
    TARGET_ENVIRONMENT for every branch name, absent and empty included:
    its feature default covers the release and unknown branches with
    "development", as the pipeline does. *)
Theorem runner_environment_is_pipeline_environment (BRANCH_NAME : option string) :
  exists cfg,
    AppTest.selectConfig (elvis BRANCH_NAME "unknown") = Some cfg
    /\ Pipeline.getBranchEnvironment BRANCH_NAME = Ok (AppTest.environment cfg)
    /\ (AppTest.skipIntegrationTests cfg = true <-> AppTest.environment cfg = "development").
Proof.
  unfold AppTest.selectConfig. unfold_pipeline.
  set (s := elvis BRANCH_NAME "unknown").
  by_rule s; rewrite ?Edev, ?Efeat, ?Ehot;
    eexists; repeat (split; [reflexivity|]);
    split; intros H; try reflexivity; discriminate.
Qed.

(** ** More on the test runner and the server *)

Lemma selectConfig_defined (b : string) :
  exists cfg, AppTest.selectConfig b = Some cfg /\ 8 <= AppTest.testCount cfg <= 15.
Proof.
  unfold AppTest.selectConfig.
  destruct ((b =? "main") || (b =? "master"));
    [|destruct (b =? "develop"); [|destruct (String.prefix "hotfix/" b)]];
    eexists; (split; [reflexivity|]); simpl; lia.
Qed.

(** X19: the runner never fails: for every branch name it finds a
    configuration and logs the five fixed lines, one line per test and, when
    integration tests are on, four lines more; the first and the last line
    name the branch (or "unknown"). *)
Theorem runner_log_size (BRANCH_NAME : option string) :
  exists cfg out,
    AppTest.selectConfig (elvis BRANCH_NAME "unknown") = Some cfg
    /\ AppTest.run BRANCH_NAME = Ok out
    /\ List.length out
       = 5 + AppTest.testCount cfg
         + (if AppTest.skipIntegrationTests cfg then 0 else 4)
    /\ 13 <= List.length out <= 24
    /\ hd "" out = "Running tests for branch: " ++ elvis BRANCH_NAME "unknown"
    /\ last out "" = "🎉 All tests passed for branch: " ++ elvis BRANCH_NAME "unknown".
Proof.
  destruct (selectConfig_defined (elvis BRANCH_NAME "unknown")) as (cfg & Hsel & Hn).
  exists cfg. eexists. split; [exact Hsel|].
  split; [exact (run_log BRANCH_NAME cfg Hsel)|].
  assert (Hlen : List.length
                   (map (fun i => AppTest.testLine i (AppTest.testCount cfg))
                      (seq 1 (AppTest.testCount cfg))) = AppTest.testCount cfg)
    by now rewrite length_map, length_seq.
  repeat split.
  - rewrite !length_app, Hlen.
    destruct (AppTest.skipIntegrationTests cfg); simpl; lia.
  - rewrite !length_app, Hlen.
    destruct (AppTest.skipIntegrationTests cfg); simpl; lia.
  - rewrite !length_app, Hlen.
    destruct (AppTest.skipIntegrationTests cfg); simpl; lia.
  - rewrite !app_assoc. apply last_last.
Qed.

(** X20: every response of the server, on whatever URL, is a JSON object
    with the members "branch" and "environment" of the process; "build" is
    left out by /health only, and "timestamp" is in the root body only. *)
Theorem server_bodies_carry_branch (BRANCH_NAME BUILD_NUMBER : option string)
    (now : string) (req : App.incomingMessage) :
  let res := App.handler BRANCH_NAME BUILD_NUMBER now req App.freshResponse in
  let ms := Obs.membersOf res in
  In ("branch", App.JString (elvis BRANCH_NAME "unknown")) ms
  /\ In ("environment", App.JString (App.environment BRANCH_NAME)) ms
  /\ (In ("build", App.JString (elvis BUILD_NUMBER "unknown")) ms
      <-> App.url req <> "/health")
  /\ (In ("timestamp", App.JString now) ms
      <-> App.url req <> "/health" /\ App.url req <> "/info").
Proof.
  intros res ms. subst ms res. unfold App.handler, Obs.membersOf.
  destruct (String.eqb_spec (App.url req) "/health") as [Hh|Hh];
    [|destruct (String.eqb_spec (App.url req) "/info") as [Hi|Hi]];
    simpl; (split; [auto 10|]); (split; [auto 10|]); split; split.
  - intros H. repeat destruct H as [H|H]; try discriminate; contradiction.
  - intros H. contradiction.
  - intros H. repeat destruct H as [H|H]; try discriminate; contradiction.
  - intros [H _]. contradiction.
  - intros _. exact Hh.
  - intros _. auto 10.
  - intros H. repeat destruct H as [H|H]; try discriminate; contradiction.
  - intros [_ H]. contradiction.
  - intros _. exact Hh.
  - intros _. auto 10.
  - intros _. split; assumption.
  - intros _. auto 10.
Qed.

(** X21: the handler looks at the URL only: two requests with the same
    URL get the same response whatever their methods, and on /health and
    /info the response does not depend on the time of the request either. *)
Theorem server_response_depends_on_url (BRANCH_NAME BUILD_NUMBER : option string)
    (now now' : string) (req req' : App.incomingMessage) :
  App.url req = App.url req' ->
  App.handler BRANCH_NAME BUILD_NUMBER now req App.freshResponse
  = App.handler BRANCH_NAME BUILD_NUMBER now req' App.freshResponse
  /\ (App.url req = "/health" \/ App.url req = "/info" ->
      App.handler BRANCH_NAME BUILD_NUMBER now req App.freshResponse
      = App.handler BRANCH_NAME BUILD_NUMBER now' req' App.freshResponse).
Proof.
  intros Hurl. unfold App.handler. rewrite <- Hurl. split; [reflexivity|].
  intros [H|H]; rewrite H; reflexivity.
Qed.

Lemma server_response_depends_on_url_witness :
  App.handler (Some "develop") (Some "7") "2024-01-01T00:00:00.000Z"
    (App.mkRequest "GET" "/health") App.freshResponse
  = App.handler (Some "develop") (Some "7") "2025-06-30T12:00:00.000Z"
      (App.mkRequest "DELETE" "/health") App.freshResponse.
Proof.
  apply (server_response_depends_on_url (Some "develop") (Some "7")
           "2024-01-01T00:00:00.000Z" "2025-06-30T12:00:00.000Z"
           (App.mkRequest "GET" "/health") (App.mkRequest "DELETE" "/health")
           eq_refl).
  left; reflexivity.
Defined.
